(** * aws-notifier: routing of AWS events to Slack and Pagerduty

    A shallow embedding of [main.go], [pagerduty.go] and [sns.go] (which
    hold the dispatcher, the two notifiers, and the SNS and Cloudwatch event
    processors), and the properties of the routing logic.

    Conventions of the embedding.
    - A Go [string] and a [[]byte] are both a [string] (a list of bytes), so
      the conversions [[]byte(s)] and [string(b)] are the identity.
    - A Go [error] is an [option string]: [None] is [nil], [Some m] is an
      error whose [Error()] text is [m].
    - A function with side effects is a function of the [World]: the log
      written by [log.Print], the HTTP requests issued by [http.Post], and
      the answers the network gives to them. A run either returns a value or
      panics.
    - [encoding/json] is a library: [json.Unmarshal] is a parameter of the
      program (class [Unmarshal]); module [GoJSON] gives a reference
      implementation that the examples run on. *)

From Stdlib Require Import Ascii.
From stdpp Require Import base strings list gmap.

Open Scope string_scope.
Open Scope list_scope.

(** ** Go values shared by the files *)

Definition error := option string.

Definition errors_New (text : string) : error := Some text.

Definition RawMessage := string.

(** [strings.Contains(s, substr)]: [substr] occurs in [s]. *)
Fixpoint strings_Contains (s substr : string) : bool :=
  if String.prefix substr s then true
  else match s with
       | EmptyString => false
       | String _ s' => strings_Contains s' substr
       end.

(** main.go, [contains]. *)
Fixpoint contains (s : list string) (el : string) : bool :=
  match s with
  | [] => false
  | v :: s' => if String.eqb v el then true else contains s' el
  end.

(** ** The chat message ([SlackMessage] and its parts) *)

Definition ColorInfo := "#00BFFF".
Definition ColorSuccess := "#00FF00".
Definition ColorWarn := "#FFD700".
Definition ColorError := "#DC143C".

Module SlackField.
Record t := mk { Title : string; Value : string; Short : bool }.
End SlackField.
Abbreviation SlackField := SlackField.t.

Module SlackAttachment.
Record t := mk { Fallback : string; Color : string; Fields : list SlackField }.
End SlackAttachment.
Abbreviation SlackAttachment := SlackAttachment.t.

Module SlackMessage.
Record t := mk { Attachments : list SlackAttachment }.
End SlackMessage.
Abbreviation SlackMessage := SlackMessage.t.

Module SlackNotifier.
Record t := mk { webhook : string }.
End SlackNotifier.
Abbreviation SlackNotifier := SlackNotifier.t.

(** ** pagerduty.go: the incident *)

Module PagerdutyIncidentDetails.
Record t := mk { Fields : gmap string string }.
End PagerdutyIncidentDetails.
Abbreviation PagerdutyIncidentDetails := PagerdutyIncidentDetails.t.

Module PagerdutyIncident.
Record t := mk {
  Description : string;
  IncidentKey : string;
  Details : PagerdutyIncidentDetails
}.
End PagerdutyIncident.
Abbreviation PagerdutyIncident := PagerdutyIncident.t.

Module PagerdutyIncidentRequest.
Record t := mk {
  ServiceKey : string;
  EventType : string;
  Description : string;
  IncidentKey : string;
  Client : string;
  Details : PagerdutyIncidentDetails
}.
End PagerdutyIncidentRequest.
Abbreviation PagerdutyIncidentRequest := PagerdutyIncidentRequest.t.

Module PagerdutyNotifier.
Record t := mk { serviceKey : string }.
End PagerdutyNotifier.
Abbreviation PagerdutyNotifier := PagerdutyNotifier.t.

(** ** The world the program runs in *)

(** A request body is kept as the value that [json.Marshal] was given: it
    stands for the JSON document that encodes it. *)
Inductive Payload :=
  | SlackPayload (msg : SlackMessage)
  | PagerdutyPayload (req : PagerdutyIncidentRequest).

Module Request.
Record t := mk { url : string; contentType : string; body : Payload }.
End Request.
Abbreviation Request := Request.t.

Module Response.
Record t := mk { StatusCode : nat }.
End Response.
Abbreviation Response := Response.t.

(** What [http.Post] can give back (net/http, [Client.Do]): a response and
    no error; a response together with an error, which happens only when the
    redirect policy stops the request; or no response ([nil]) and an error,
    for every failure of the transport (DNS, connection, TLS, timeout). *)
Inductive PostResult :=
  | PostResponse (res : Response)
  | PostRedirectError (res : Response) (err : string)
  | PostTransportError (err : string).

Module World.
Record t := mk {
  net : nat -> PostResult;   (* the answer to the n-th request of the run *)
  posts : list Request;      (* requests issued so far, oldest first *)
  logs : list string         (* lines printed so far, oldest first *)
}.
End World.
Abbreviation World := World.t.

Inductive Outcome (A : Type) :=
  | Returned (a : A)
  | Panicked (reason : string).
Arguments Returned {A} a.
Arguments Panicked {A} reason.

Definition Go (A : Type) : Type := World -> Outcome A * World.

#[export] Instance Go_ret : MRet Go := fun A a w => (Returned a, w).

#[export] Instance Go_bind : MBind Go := fun A B f m w =>
  match m w with
  | (Returned a, w') => f a w'
  | (Panicked reason, w') => (Panicked reason, w')
  end.

Definition panic {A : Type} (reason : string) : Go A :=
  fun w => (Panicked reason, w).

Definition log_Print (line : string) : Go unit :=
  fun w => (Returned (), World.mk (World.net w) (World.posts w) (World.logs w ++ [line])).

Definition http_Post (url contentType : string) (body : Payload)
  : Go (option Response * error) :=
  fun w =>
    let w' := World.mk (World.net w)
                (World.posts w ++ [Request.mk url contentType body])
                (World.logs w) in
    match World.net w (length (World.posts w)) with
    | PostResponse res => (Returned (Some res, None), w')
    | PostRedirectError res err => (Returned (Some res, Some err), w')
    | PostTransportError err => (Returned (None, Some err), w')
    end.

(** [res.Body.Close()]: selecting [Body] of a [nil] response panics. *)
Definition Response_Body_Close (res : option Response) : Go unit :=
  match res with
  | Some _ => mret ()
  | None => panic "runtime error: invalid memory address or nil pointer dereference"
  end.

(** [json.Marshal] of a [SlackMessage] or a [PagerdutyIncidentRequest]:
    structs of strings, booleans, slices and a string map, which
    encoding/json always encodes, so the error is always [nil]. *)
Definition json_Marshal_SlackMessage (msg : SlackMessage) : Payload * error :=
  (SlackPayload msg, None).

Definition json_Marshal_PagerdutyIncidentRequest (req : PagerdutyIncidentRequest)
  : Payload * error :=
  (PagerdutyPayload req, None).

(** [SlackNotifier.sendMessage]. *)
Definition sendMessage (n : SlackNotifier) (msg : SlackMessage) : Go error :=
  log_Print "Sending Slack message...";;
  let '(payload, err) := json_Marshal_SlackMessage msg in
  match err with
  | Some e => mret (errors_New ("Failed to marshal Slack message: " +:+ e))
  | None =>
      '(res, err) ← http_Post (SlackNotifier.webhook n) "application/json" payload;
      Response_Body_Close res;;
      match err with
      | Some e => mret (errors_New ("Failed to send Slack message - got error: " +:+ e))
      | None =>
          log_Print "Slack message sent";;
          mret None
      end
  end.

Definition pagerduty_endpoint :=
  "https://events.pagerduty.com/generic/2010-04-15/create_event.json".

(** pagerduty.go, [PagerdutyNotifier.triggerIncident]. *)
Definition triggerIncident (p : PagerdutyNotifier) (incident : PagerdutyIncident)
  : Go error :=
  log_Print "Triggering Pagerduty incident...";;
  let req := PagerdutyIncidentRequest.mk
               (PagerdutyNotifier.serviceKey p)
               "trigger"
               (PagerdutyIncident.Description incident)
               (PagerdutyIncident.IncidentKey incident)
               "AWS Event Processor"
               (PagerdutyIncident.Details incident) in
  let '(payload, err) := json_Marshal_PagerdutyIncidentRequest req in
  match err with
  | Some e => mret (errors_New ("failed to marshal Pagerduty request: " +:+ e))
  | None =>
      '(res, err) ← http_Post pagerduty_endpoint "application/json" payload;
      Response_Body_Close res;;
      match err with
      | Some e =>
          mret (errors_New ("failed to trigger Pagerduty Incident - got error: " +:+ e))
      | None =>
          log_Print "Pagerduty incident triggered";;
          mret None
      end
  end.

(** ** Decoded JSON *)

(** What encoding/json stores in an [interface{}]: [nil], [bool],
    [float64], [string], [[]interface{}] or [map[string]interface{}]. A
    number is kept as its literal, which stands for the [float64] it
    denotes; the program never looks at one. *)
#[local] Set Warnings "-register-all".
Inductive Value :=
  | VNil
  | VBool (b : bool)
  | VFloat64 (literal : string)
  | VString (s : string)
  | VSlice (elems : list Value)
  | VMap (members : gmap string Value).

(** [v == s] for an [interface{}] [v] and a string constant [s]: the
    dynamic type must be [string] and the strings equal. A missing map key
    reads as [nil]. *)
Definition interface_eq_string (v : option Value) (s : string) : bool :=
  match v with
  | Some (VString s') => String.eqb s' s
  | _ => false
  end.

(** The result of [json.Unmarshal(raw, &v)]: the value stored in [v] when
    the error is [nil], the error's text otherwise (the program never reads
    [v] after an error). *)
Inductive Decoded (T : Type) :=
  | Decoded_ok (v : T)
  | Decoded_err (err : string).
Arguments Decoded_ok {T} v.
Arguments Decoded_err {T} err.

Class Unmarshal (T : Type) := json_Unmarshal : RawMessage -> Decoded T.

(** ** main.go: the envelope used to tell the event families apart *)

Module GenericEvent.
Record t := mk {
  Records : option (list (gmap string Value));  (* [None] is a nil slice *)
  Id : string;
  DetailType : string;
  Source : string;
  Test : string
}.
End GenericEvent.
Abbreviation GenericEvent := GenericEvent.t.

(** ** sns.go: SNS payloads *)

Module SMSMessageAttribute.
Record t := mk { Type_ : string; Value : string }.
End SMSMessageAttribute.
Abbreviation SMSMessageAttribute := SMSMessageAttribute.t.

Module SNSMessage.
Record t := mk {
  SignatureVersion : string;
  Timestamp : string;
  Signature : string;
  SigningCertUrl : string;
  MessageId : string;
  Message : string;
  MessageAttributes : gmap string SMSMessageAttribute;
  Type_ : string;
  UnsubscribeUrl : string;
  TopicArn : string;
  Subject : string
}.
End SNSMessage.
Abbreviation SNSMessage := SNSMessage.t.

Module SNSRecord.
Record t := mk {
  EventVersion : string;
  EventSubscriptionArn : string;
  EventSource : string;
  Sns : SNSMessage
}.
End SNSRecord.
Abbreviation SNSRecord := SNSRecord.t.

Module SNSRecordList.
Record t := mk { Records : list SNSRecord }.
End SNSRecordList.
Abbreviation SNSRecordList := SNSRecordList.t.

Module CloudwatchAlarmTriggerDimension.
Record t := mk { Name : string; Value : string }.
End CloudwatchAlarmTriggerDimension.
Abbreviation CloudwatchAlarmTriggerDimension := CloudwatchAlarmTriggerDimension.t.

Module CloudwatchAlarmTrigger.
Record t := mk {
  MetricName : string;
  Namespace : string;
  Statistic : string;
  Unit : string;
  Dimensions : list CloudwatchAlarmTriggerDimension;
  Period : Z;
  EvaluationPeriods : Z;
  ComparisonOperator : string;
  Threshold : string    (* a float32, kept as its literal; never read *)
}.
End CloudwatchAlarmTrigger.
Abbreviation CloudwatchAlarmTrigger := CloudwatchAlarmTrigger.t.

Module CloudwatchAlarm.
Record t := mk {
  AlarmName : string;
  AlarmDescription : string;
  AWSAccountId : string;
  NewStateValue : string;
  NewStateReason : string;
  StateChangeTime : string;
  Region : string;
  OldStateValue : string;
  Trigger : CloudwatchAlarmTrigger
}.
End CloudwatchAlarm.
Abbreviation CloudwatchAlarm := CloudwatchAlarm.t.

(** ** sns.go: Cloudwatch event payloads *)

Module CloudwatchEvent.
Record t := mk {
  Id : string;
  DetailType : string;
  Source : string;
  Account : string;
  Time : string;
  Region : string;
  Resources : list string;
  Detail : RawMessage
}.
End CloudwatchEvent.
Abbreviation CloudwatchEvent := CloudwatchEvent.t.

Module DetailEC2StateChange.
Record t := mk { InstanceId : string; State : string }.
End DetailEC2StateChange.
Abbreviation DetailEC2StateChange := DetailEC2StateChange.t.

Module DetailAutoScalingLifecycleEvent.
Record t := mk {
  LifecycleActionToken : string;
  AutoScalingGroupName : string;
  LifecycleHookName : string;
  EC2InstanceId : string;
  LifecycleTransition : string;
  NotificationMetadata : string
}.
(** [var eventDetail DetailAutoScalingLifecycleEvent]: the zero value. *)
Definition zero : t := mk "" "" "" "" "" "".
End DetailAutoScalingLifecycleEvent.
Abbreviation DetailAutoScalingLifecycleEvent := DetailAutoScalingLifecycleEvent.t.

Module DetailAutoScalingEC2EventDetails.
Record t := mk { AvailabilityZone : string; SubnetID : string }.
End DetailAutoScalingEC2EventDetails.
Abbreviation DetailAutoScalingEC2EventDetails := DetailAutoScalingEC2EventDetails.t.

Module DetailAutoScalingEC2Event.
Record t := mk {
  StatusCode : string;
  AutoScalingGroupName : string;
  ActivityId : string;
  Details : DetailAutoScalingEC2EventDetails;
  RequestId : string;
  EndTime : string;
  EC2InstanceId : string;
  StartTime : string;
  Cause : string
}.
(** [var eventDetail DetailAutoScalingEC2Event]: the zero value. *)
Definition zero : t :=
  mk "" "" "" (DetailAutoScalingEC2EventDetails.mk "" "") "" "" "" "" "".
End DetailAutoScalingEC2Event.
Abbreviation DetailAutoScalingEC2Event := DetailAutoScalingEC2Event.t.

(** ** The event processors *)

Section Processors.
Context {UnmarshalGenericEvent : Unmarshal GenericEvent}
        {UnmarshalSNSRecordList : Unmarshal SNSRecordList}
        {UnmarshalCloudwatchAlarm : Unmarshal CloudwatchAlarm}
        {UnmarshalCloudwatchEvent : Unmarshal CloudwatchEvent}
        {UnmarshalDetailEC2StateChange : Unmarshal DetailEC2StateChange}.

(** The two plain branches of [processSNSRecord], each as the source
    writes it out: the [else if] on the subject of an RDS notification, and
    the final [else]. *)
Definition processSNSRecord_rds (slackNotifier : SlackNotifier)
    (record : SNSRecord) : Go error :=
  let slackMessage := SlackMessage.mk [
    SlackAttachment.mk
      (SNSMessage.Message (SNSRecord.Sns record))
      ColorInfo
      [ SlackField.mk (SNSMessage.Subject (SNSRecord.Sns record))
                      (SNSMessage.Message (SNSRecord.Sns record))
                      false ] ] in
  err ← sendMessage slackNotifier slackMessage;
  match err with
  | Some e => mret (Some e)
  | None => mret None
  end.

Definition processSNSRecord_plain (slackNotifier : SlackNotifier)
    (record : SNSRecord) : Go error :=
  let slackMessage := SlackMessage.mk [
    SlackAttachment.mk
      (SNSMessage.Message (SNSRecord.Sns record))
      ColorInfo
      [ SlackField.mk (SNSMessage.Subject (SNSRecord.Sns record))
                      (SNSMessage.Message (SNSRecord.Sns record))
                      false ] ] in
  err ← sendMessage slackNotifier slackMessage;
  match err with
  | Some e => mret (Some e)
  | None => mret None
  end.

(** sns.go, [processSNSRecord]. *)
Definition processSNSRecord (slackNotifier : SlackNotifier)
    (pagerdutyNotifier : PagerdutyNotifier) (record : SNSRecord) : Go error :=
  let subject := SNSMessage.Subject (SNSRecord.Sns record) in
  if strings_Contains subject "ALARM:" || strings_Contains subject "OK:" then
    let isFailing := strings_Contains subject "ALARM:" in
    match json_Unmarshal (SNSMessage.Message (SNSRecord.Sns record)) with
    | Decoded_err e =>
        mret (errors_New ("could not unmarshal Cloudwatch Alarm payload: " +:+ e))
    | Decoded_ok alarm =>
        let dimensions :=
          CloudwatchAlarmTrigger.Dimensions (CloudwatchAlarm.Trigger alarm) in
        let fields := [ SlackField.mk subject
                          (CloudwatchAlarm.NewStateReason alarm) false ] in
        let fields :=
          foldl (fun fields d =>
                   fields ++ [ SlackField.mk
                                 (CloudwatchAlarmTriggerDimension.Name d)
                                 (CloudwatchAlarmTriggerDimension.Value d)
                                 true ])
                fields dimensions in
        let color := if isFailing then ColorError else ColorSuccess in
        let fields :=
          fields ++ [ SlackField.mk "Namespace"
                        (CloudwatchAlarmTrigger.Namespace (CloudwatchAlarm.Trigger alarm))
                        true ] in
        let fields :=
          fields ++ [ SlackField.mk "MetricName"
                        (CloudwatchAlarmTrigger.MetricName (CloudwatchAlarm.Trigger alarm))
                        true ] in
        let slackMessage := SlackMessage.mk [
          SlackAttachment.mk (CloudwatchAlarm.NewStateReason alarm) color fields ] in
        err ← sendMessage slackNotifier slackMessage;
        match err with
        | Some e => mret (Some e)
        | None =>
            if isFailing then
              let '(incidentKey, detailFields) :=
                foldl (fun '(incidentKey, detailFields) dv =>
                         (incidentKey +:+ CloudwatchAlarmTriggerDimension.Value dv,
                          <[CloudwatchAlarmTriggerDimension.Name dv :=
                              CloudwatchAlarmTriggerDimension.Value dv]> detailFields))
                      ("incident", ∅) dimensions in
              let incident := PagerdutyIncident.mk
                (subject +:+ "-" +:+ CloudwatchAlarm.NewStateReason alarm)
                incidentKey
                (PagerdutyIncidentDetails.mk detailFields) in
              err ← triggerIncident pagerdutyNotifier incident;
              match err with
              | Some e => mret (Some e)
              | None => mret None
              end
            else mret None
        end
    end
  else if strings_Contains subject "RDS Notification Message" then
    processSNSRecord_rds slackNotifier record
  else
    processSNSRecord_plain slackNotifier record.

(** The [for _, record := range recordList.Records] loop of
    [processSNSRecords]. *)
Fixpoint processSNSRecords_range (slackNotifier : SlackNotifier)
    (pagerdutyNotifier : PagerdutyNotifier) (records : list SNSRecord)
  : Go error :=
  match records with
  | [] => mret None
  | record :: records' =>
      err ← processSNSRecord slackNotifier pagerdutyNotifier record;
      match err with
      | Some e => mret (errors_New ("could not process SNS record: " +:+ e))
      | None => processSNSRecords_range slackNotifier pagerdutyNotifier records'
      end
  end.

(** sns.go, [processSNSRecords]. *)
Definition processSNSRecords (slackNotifier : SlackNotifier)
    (pagerdutyNotifier : PagerdutyNotifier) (raw : RawMessage) : Go error :=
  match json_Unmarshal raw with
  | Decoded_err e =>
      mret (errors_New ("could not unmarshal SNS record list: " +:+ e))
  | Decoded_ok recordList =>
      processSNSRecords_range slackNotifier pagerdutyNotifier
        (SNSRecordList.Records recordList)
  end.

(** sns.go, [processEC2StateChangeEvent]. *)
Definition processEC2StateChangeEvent (slackNotifier : SlackNotifier)
    (pagerdutyNotifier : PagerdutyNotifier) (event : CloudwatchEvent) : Go error :=
  match json_Unmarshal (CloudwatchEvent.Detail event) with
  | Decoded_err e =>
      mret (errors_New ("unsupported EC2 Cloudwatch Event Detail: " +:+ e))
  | Decoded_ok eventDetail =>
      let color :=
        if contains ["shutting-down"; "terminated"; "stopping"; "stopped"]
                    (DetailEC2StateChange.State eventDetail)
        then ColorWarn else ColorInfo in
      let title := "EC2 Instance State-change" in
      let slackMessage := SlackMessage.mk [
        SlackAttachment.mk title color
          [ SlackField.mk "CloudWatch Event" title false;
            SlackField.mk "instance-id"
              (DetailEC2StateChange.InstanceId eventDetail) true;
            SlackField.mk "state"
              (DetailEC2StateChange.State eventDetail) true ] ] in
      err ← sendMessage slackNotifier slackMessage;
      match err with
      | Some e => mret (Some e)
      | None => mret None
      end
  end.

(** sns.go, [processAutoscalingEvent]. Both branches declare
    [eventDetail] and read its fields; neither assigns to it, and
    [event.Detail] is not read. *)
Definition processAutoscalingEvent (slackNotifier : SlackNotifier)
    (pagerdutyNotifier : PagerdutyNotifier) (event : CloudwatchEvent) : Go error :=
  if contains ["EC2 Instance-launch Lifecycle Action";
               "EC2 Instance-terminate Lifecycle Action"]
              (CloudwatchEvent.DetailType event)
  then
    let eventDetail := DetailAutoScalingLifecycleEvent.zero in
    let title := "Autoscaling - Lifecycle Action" in
    let slackMessage := SlackMessage.mk [
      SlackAttachment.mk title ColorInfo
        [ SlackField.mk "CloudWatch Event" title false;
          SlackField.mk "AutoScalingGroupName"
            (DetailAutoScalingLifecycleEvent.AutoScalingGroupName eventDetail) true;
          SlackField.mk "EC2InstanceId"
            (DetailAutoScalingLifecycleEvent.EC2InstanceId eventDetail) true;
          SlackField.mk "LifecycleTransition"
            (DetailAutoScalingLifecycleEvent.LifecycleTransition eventDetail) true ] ] in
    err ← sendMessage slackNotifier slackMessage;
    match err with
    | Some e => mret (Some e)
    | None => mret None
    end
  else
    let eventDetail := DetailAutoScalingEC2Event.zero in
    let color :=
      if contains ["EC2 Instance Launch Unsuccessful";
                   "EC2 Instance Terminate Unsuccessful"]
                  (CloudwatchEvent.DetailType event)
      then ColorWarn else ColorInfo in
    let title := "Autoscaling - " +:+ CloudwatchEvent.DetailType event in
    let slackMessage := SlackMessage.mk [
      SlackAttachment.mk title color
        [ SlackField.mk "CloudWatch Event" title false;
          SlackField.mk "EC2InstanceId"
            (DetailAutoScalingEC2Event.EC2InstanceId eventDetail) true;
          SlackField.mk "StatusCode"
            (DetailAutoScalingEC2Event.StatusCode eventDetail) true;
          SlackField.mk "Availability Zone"
            (DetailAutoScalingEC2EventDetails.AvailabilityZone
               (DetailAutoScalingEC2Event.Details eventDetail)) true;
          SlackField.mk "Cause"
            (DetailAutoScalingEC2Event.Cause eventDetail) true ] ] in
    err ← sendMessage slackNotifier slackMessage;
    match err with
    | Some e => mret (Some e)
    | None => mret None
    end.

(** sns.go, [processCloudwatchEvent]. *)
Definition processCloudwatchEvent (slackNotifier : SlackNotifier)
    (pagerdutyNotifier : PagerdutyNotifier) (raw : RawMessage) : Go error :=
  match json_Unmarshal raw with
  | Decoded_err e =>
      mret (errors_New ("unsupported Cloudwatch Event payload: " +:+ e))
  | Decoded_ok event =>
      if String.eqb (CloudwatchEvent.Source event) "aws.ec2" then
        if String.eqb (CloudwatchEvent.DetailType event)
                      "EC2 Instance State-change Notification"
        then
          err ← processEC2StateChangeEvent slackNotifier pagerdutyNotifier event;
          match err with
          | Some e => mret (errors_New ("failed to process EC2 Event: " +:+ e))
          | None => mret None
          end
        else mret None
      else if String.eqb (CloudwatchEvent.Source event) "aws.events" then
        mret None
      else if String.eqb (CloudwatchEvent.Source event) "aws.autoscaling" then
        err ← processAutoscalingEvent slackNotifier pagerdutyNotifier event;
        match err with
        | Some e => mret (errors_New ("failed to process Autoscaling Event: " +:+ e))
        | None => mret None
        end
      else
        let title := CloudwatchEvent.Source event in
        let slackMessage := SlackMessage.mk [
          SlackAttachment.mk title ColorInfo
            [ SlackField.mk "CloudWatch Event" title false;
              SlackField.mk "Event Detail JSON" (CloudwatchEvent.Detail event) false ] ] in
        err ← sendMessage slackNotifier slackMessage;
        match err with
        | Some e => mret (Some e)
        | None => mret None
        end
  end.

(** main.go, [processMessage]. *)
Definition processMessage (slackNotifier : SlackNotifier)
    (pagerdutyNotifier : PagerdutyNotifier) (raw : RawMessage) : Go error :=
  match json_Unmarshal raw with
  | Decoded_err e => mret (errors_New ("unsupported payload: " +:+ e))
  | Decoded_ok data =>
      match GenericEvent.Records data with
      | Some (first :: _) =>
          if interface_eq_string (first !! "EventSource") "aws:sns" then
            err ← processSNSRecords slackNotifier pagerdutyNotifier raw;
            match err with
            | Some e => mret (Some e)
            | None => mret None
            end
          else
            log_Print "No SNS records to process";;
            mret None
      | Some [] | None =>
          err ← processCloudwatchEvent slackNotifier pagerdutyNotifier raw;
          match err with
          | Some e => mret (Some e)
          | None => mret None
          end
      end
  end.

(** main.go, [HandleRequest]; [env] is the process environment read by
    [os.LookupEnv]. *)
Definition HandleRequest (env : gmap string string) (rawData : RawMessage)
  : Go error :=
  log_Print "Receiving new Event(s)";;
  match env !! "slack_webhook" with
  | None => mret (errors_New "could not read slack_webhook_enc from environment")
  | Some slackWebhook =>
      let slackNotifier := SlackNotifier.mk slackWebhook in
      match env !! "pagerduty_key" with
      | None => mret (errors_New "could not read pagerduty_key from environment")
      | Some pagerdutyKey =>
          let pagerdutyNotifier := PagerdutyNotifier.mk pagerdutyKey in
          processMessage slackNotifier pagerdutyNotifier rawData
      end
  end.
End Processors.

(** ** A reference implementation of [json.Unmarshal]

    The processors above are stated for any decoder. This module is the
    decoder the examples run on: a parser of JSON text (RFC 8259) and, for
    every struct of the program, the decoding that its field types and
    [json:] tags ask of encoding/json: keys are matched to fields without
    regard to case, unknown keys are skipped, [null] leaves the zero value,
    and a value of the wrong kind is an error. It simplifies the library in
    three places, none of which the examples touch: when an object repeats a
    key the last non-null occurrence is the one decoded, bytes above 127
    inside a string are copied as they are, and the text of an error only
    names the kind of failure. *)
Module GoJSON.

Inductive Json :=
  | Null
  | Bool (b : bool)
  | Number (literal : string)
  | Str (s : string)
  | Array (elems : list Json)
  | Object (members : list (string * (RawMessage * Json))).
    (* key, the text of the value, the value *)

Definition quote : ascii := "034"%char.
Definition backslash : ascii := "092"%char.

Definition is_space (c : ascii) : bool :=
  Ascii.eqb c " " || Ascii.eqb c "009" || Ascii.eqb c "010" || Ascii.eqb c "013".

Definition is_digit (c : ascii) : bool :=
  let n := nat_of_ascii c in (48 <=? n)%nat && (n <=? 57)%nat.

Fixpoint skip_ws (s : string) : string :=
  match s with
  | String c s' => if is_space c then skip_ws s' else s
  | EmptyString => s
  end.

Definition hex_val (c : ascii) : option N :=
  let n := N_of_ascii c in
  if (48 <=? n)%N && (n <=? 57)%N then Some (n - 48)%N
  else if (65 <=? n)%N && (n <=? 70)%N then Some (n - 55)%N
  else if (97 <=? n)%N && (n <=? 102)%N then Some (n - 87)%N
  else None.

(** Four hexadecimal digits at the head of [s]. *)
Definition hex4 (s : string) : option (N * string) :=
  match s with
  | String a (String b (String c (String d s'))) =>
      match hex_val a, hex_val b, hex_val c, hex_val d with
      | Some a, Some b, Some c, Some d =>
          Some (((a * 16 + b) * 16 + c) * 16 + d, s')%N
      | _, _, _, _ => None
      end
  | _ => None
  end.

Definition byte (n : N) : ascii := ascii_of_N n.

(** The UTF-8 encoding of a code point. *)
Definition utf8 (cp : N) : string :=
  if (cp <? 128)%N then String (byte cp) ""
  else if (cp <? 2048)%N then
    String (byte (192 + cp / 64)) (String (byte (128 + cp mod 64)) "")
  else if (cp <? 65536)%N then
    String (byte (224 + cp / 4096))
      (String (byte (128 + (cp / 64) mod 64))
         (String (byte (128 + cp mod 64)) ""))
  else
    String (byte (240 + cp / 262144))
      (String (byte (128 + (cp / 4096) mod 64))
         (String (byte (128 + (cp / 64) mod 64))
            (String (byte (128 + cp mod 64)) ""))).

Definition is_high_surrogate (cp : N) : bool := (55296 <=? cp)%N && (cp <? 56320)%N.
Definition is_low_surrogate (cp : N) : bool := (56320 <=? cp)%N && (cp <? 57344)%N.
Definition replacement_char : N := 65533%N.

(** The code point of a [\u] escape whose four digits are [cp], followed
    by [s]: a surrogate pair is combined, a lone surrogate becomes
    U+FFFD. *)
Definition unicode_escape (cp : N) (s : string) : N * string :=
  if is_high_surrogate cp then
    match s with
    | String b (String u s') =>
        if Ascii.eqb b backslash && Ascii.eqb u "u" then
          match hex4 s' with
          | Some (lo, s'') =>
              if is_low_surrogate lo
              then (65536 + (cp - 55296) * 1024 + (lo - 56320), s'')%N
              else (replacement_char, s)
          | None => (replacement_char, s)
          end
        else (replacement_char, s)
    | _ => (replacement_char, s)
    end
  else if is_low_surrogate cp then (replacement_char, s)
  else (cp, s).

Definition simple_escape (c : ascii) : option ascii :=
  if Ascii.eqb c quote then Some quote
  else if Ascii.eqb c backslash then Some backslash
  else if Ascii.eqb c "/" then Some "/"%char
  else if Ascii.eqb c "b" then Some "008"%char
  else if Ascii.eqb c "f" then Some "012"%char
  else if Ascii.eqb c "n" then Some "010"%char
  else if Ascii.eqb c "r" then Some "013"%char
  else if Ascii.eqb c "t" then Some "009"%char
  else None.

(** The rest of a string literal, after its opening quote: the string it
    denotes and the text after the closing quote. *)
Fixpoint scan_string (fuel : nat) (s : string) : option (string * string) :=
  match fuel with
  | O => None
  | S fuel =>
      match s with
      | EmptyString => None
      | String c s' =>
          if Ascii.eqb c quote then Some ("", s')
          else if Ascii.eqb c backslash then
            match s' with
            | EmptyString => None
            | String e s'' =>
                if Ascii.eqb e "u" then
                  match hex4 s'' with
                  | None => None
                  | Some (cp, s3) =>
                      let '(cp, s4) := unicode_escape cp s3 in
                      match scan_string fuel s4 with
                      | Some (body, rest) => Some (utf8 cp +:+ body, rest)
                      | None => None
                      end
                  end
                else
                  match simple_escape e with
                  | None => None
                  | Some c' =>
                      match scan_string fuel s'' with
                      | Some (body, rest) => Some (String c' body, rest)
                      | None => None
                      end
                  end
            end
          else if (nat_of_ascii c <? 32)%nat then None
          else
            match scan_string fuel s' with
            | Some (body, rest) => Some (String c body, rest)
            | None => None
            end
      end
  end.

(** The longest run of digits at the head of [s]. *)
Fixpoint scan_digits (s : string) : string * string :=
  match s with
  | String c s' =>
      if is_digit c then let '(ds, rest) := scan_digits s' in (String c ds, rest)
      else ("", s)
  | EmptyString => ("", s)
  end.

(** A number literal at the head of [s]: an optional minus sign; then a
    single zero or digits that do not start with zero; then, optionally, a
    point and digits; then, optionally, [e] or [E], a sign, and digits. *)
Definition scan_number (s : string) : option (string * string) :=
  let '(sign, s1) :=
    match s with
    | String c s' => if Ascii.eqb c "-" then ("-", s') else ("", s)
    | EmptyString => ("", s)
    end in
  let '(int, s2) := scan_digits s1 in
  match int with
  | EmptyString => None
  | String d ds =>
      if Ascii.eqb d "0" && negb (String.eqb ds "") then None
      else
        let frac :=
          match s2 with
          | String c s' =>
              if Ascii.eqb c "." then
                let '(fs, s3) := scan_digits s' in
                if String.eqb fs "" then None else Some ("." +:+ fs, s3)
              else Some ("", s2)
          | EmptyString => Some ("", s2)
          end in
        match frac with
        | None => None
        | Some (frac, s3) =>
            let exp :=
              match s3 with
              | String c s' =>
                  if Ascii.eqb c "e" || Ascii.eqb c "E" then
                    let '(esign, s4) :=
                      match s' with
                      | String g s'' =>
                          if Ascii.eqb g "+" || Ascii.eqb g "-"
                          then (String g "", s'') else ("", s')
                      | EmptyString => ("", s')
                      end in
                    let '(es, s5) := scan_digits s4 in
                    if String.eqb es "" then None
                    else Some (String c esign +:+ es, s5)
                  else Some ("", s3)
              | EmptyString => Some ("", s3)
              end in
            match exp with
            | None => None
            | Some (exp, s4) => Some (sign +:+ int +:+ frac +:+ exp, s4)
            end
        end
  end.

(** The text consumed between [before] and its suffix [after]. *)
Definition consumed (before after : string) : string :=
  String.substring 0 (String.length before - String.length after) before.

Definition strip_prefix (p s : string) : option string :=
  if String.prefix p s
  then Some (String.substring (String.length p) (String.length s - String.length p) s)
  else None.

Fixpoint parse_value (fuel : nat) (s : string) : option (Json * string) :=
  match fuel with
  | O => None
  | S fuel =>
      match skip_ws s with
      | EmptyString => None
      | String c s' as s0 =>
          if Ascii.eqb c quote then
            match scan_string (S (String.length s')) s' with
            | Some (str, rest) => Some (Str str, rest)
            | None => None
            end
          else if Ascii.eqb c "{" then
            match skip_ws s' with
            | String c' s'' =>
                if Ascii.eqb c' "}" then Some (Object [], s'')
                else
                  match parse_members fuel s' with
                  | Some (ms, rest) => Some (Object ms, rest)
                  | None => None
                  end
            | EmptyString => None
            end
          else if Ascii.eqb c "[" then
            match skip_ws s' with
            | String c' s'' =>
                if Ascii.eqb c' "]" then Some (Array [], s'')
                else
                  match parse_elems fuel s' with
                  | Some (vs, rest) => Some (Array vs, rest)
                  | None => None
                  end
            | EmptyString => None
            end
          else
            match strip_prefix "true" s0, strip_prefix "false" s0,
                  strip_prefix "null" s0 with
            | Some rest, _, _ => Some (Bool true, rest)
            | _, Some rest, _ => Some (Bool false, rest)
            | _, _, Some rest => Some (Null, rest)
            | None, None, None =>
                match scan_number s0 with
                | Some (lit, rest) => Some (Number lit, rest)
                | None => None
                end
            end
      end
  end
with parse_members (fuel : nat) (s : string)
  : option (list (string * (RawMessage * Json)) * string) :=
  match fuel with
  | O => None
  | S fuel =>
      match skip_ws s with
      | EmptyString => None
      | String c s1 =>
          if Ascii.eqb c quote then
            match scan_string (S (String.length s1)) s1 with
            | None => None
            | Some (key, s2) =>
                match skip_ws s2 with
                | EmptyString => None
                | String colon s3 =>
                    if Ascii.eqb colon ":" then
                      match parse_value fuel s3 with
                      | None => None
                      | Some (v, s4) =>
                          let member := (key, (consumed (skip_ws s3) s4, v)) in
                          match skip_ws s4 with
                          | EmptyString => None
                          | String sep s5 =>
                              if Ascii.eqb sep "}" then Some ([member], s5)
                              else if Ascii.eqb sep "," then
                                match parse_members fuel s5 with
                                | Some (ms, rest) => Some (member :: ms, rest)
                                | None => None
                                end
                              else None
                          end
                      end
                    else None
                end
            end
          else None
      end
  end
with parse_elems (fuel : nat) (s : string) : option (list Json * string) :=
  match fuel with
  | O => None
  | S fuel =>
      match parse_value fuel s with
      | None => None
      | Some (v, s1) =>
          match skip_ws s1 with
          | EmptyString => None
          | String sep s2 =>
              if Ascii.eqb sep "]" then Some ([v], s2)
              else if Ascii.eqb sep "," then
                match parse_elems fuel s2 with
                | Some (vs, rest) => Some (v :: vs, rest)
                | None => None
                end
              else None
          end
      end
  end.

(** A whole document: one value, with nothing but white space around. *)
Definition parse (raw : RawMessage) : option Json :=
  match parse_value (S (String.length raw)) raw with
  | Some (v, rest) => if String.eqb (skip_ws rest) "" then Some v else None
  | None => None
  end.

(** Example texts are written with ['] for the quotation mark. *)
Fixpoint text (s : string) : RawMessage :=
  match s with
  | String c s' => String (if Ascii.eqb c "'" then quote else c) (text s')
  | EmptyString => EmptyString
  end.

(** *** Decoding a parsed value into a Go type *)

#[export] Instance Decoded_ret : MRet Decoded := fun A a => Decoded_ok a.

#[export] Instance Decoded_bind : MBind Decoded := fun A B f m =>
  match m with
  | Decoded_ok a => f a
  | Decoded_err e => Decoded_err e
  end.

Definition Dec (T : Type) : Type := Json -> Decoded T.

Definition kind (j : Json) : string :=
  match j with
  | Null => "null"
  | Bool _ => "bool"
  | Number _ => "number"
  | Str _ => "string"
  | Array _ => "array"
  | Object _ => "object"
  end.

Definition type_error {T : Type} (j : Json) (ty : string) : Decoded T :=
  Decoded_err ("json: cannot unmarshal " +:+ kind j +:+ " into Go value of type " +:+ ty).

Definition lower (c : ascii) : ascii :=
  let n := nat_of_ascii c in
  if (65 <=? n)%nat && (n <=? 90)%nat then ascii_of_nat (n + 32) else c.

Fixpoint to_lower (s : string) : string :=
  match s with
  | String c s' => String (lower c) (to_lower s')
  | EmptyString => EmptyString
  end.

Definition equal_fold (a b : string) : bool := String.eqb (to_lower a) (to_lower b).

Definition is_null (j : Json) : bool :=
  match j with Null => true | _ => false end.

Abbreviation Members := (list (string * (RawMessage * Json))).

(** The last member whose key names the field [name]. *)
Definition member_any (ms : Members) (name : string) : option (RawMessage * Json) :=
  snd <$> last (List.filter (fun m => equal_fold (fst m) name) ms).

(** The same, leaving out members whose value is [null]. *)
Definition member (ms : Members) (name : string) : option (RawMessage * Json) :=
  member_any (List.filter (fun m => negb (is_null (snd (snd m)))) ms) name.

Definition get {T : Type} (dec : Dec T) (ms : Members) (name : string) : Decoded T :=
  match member ms name with
  | Some (_, v) => dec v
  | None => dec Null
  end.

(** A field of type [json.RawMessage] takes the text of the value. *)
Definition get_raw (ms : Members) (name : string) : Decoded RawMessage :=
  match member_any ms name with
  | Some (raw, _) => Decoded_ok raw
  | None => Decoded_ok ""
  end.

(** A struct: [null] leaves every field at its zero value, as an object
    without members does. *)
Definition dec_struct {T : Type} (ty : string)
    (fields : Members -> Decoded T) : Dec T :=
  fun j =>
    match j with
    | Null => fields []
    | Object ms => fields ms
    | _ => type_error j ty
    end.

Definition dec_string : Dec string :=
  fun j =>
    match j with
    | Null => Decoded_ok ""
    | Str s => Decoded_ok s
    | _ => type_error j "string"
    end.

Fixpoint digits_value (acc : Z) (s : string) : option Z :=
  match s with
  | EmptyString => Some acc
  | String c s' =>
      if is_digit c
      then digits_value (acc * 10 + Z.of_nat (nat_of_ascii c - 48)) s'
      else None
  end.

(** A literal with neither fraction nor exponent, as an integer. *)
Definition literal_int (lit : string) : option Z :=
  match lit with
  | EmptyString => None
  | String c s' =>
      if Ascii.eqb c "-" then Z.opp <$> digits_value 0 s' else digits_value 0 lit
  end.

(** Go's [int] on the 64-bit platforms Lambda runs on. *)
Definition dec_int : Dec Z :=
  fun j =>
    match j with
    | Null => Decoded_ok 0%Z
    | Number lit =>
        match literal_int lit with
        | Some z =>
            if ((- 2 ^ 63 <=? z) && (z <? 2 ^ 63))%Z then Decoded_ok z
            else type_error j "int"
        | None => type_error j "int"
        end
    | _ => type_error j "int"
    end.

Definition dec_float32 : Dec string :=
  fun j =>
    match j with
    | Null => Decoded_ok "0"
    | Number lit => Decoded_ok lit
    | _ => type_error j "float32"
    end.

Fixpoint dec_all {T : Type} (dec : Dec T) (elems : list Json) : Decoded (list T) :=
  match elems with
  | [] => Decoded_ok []
  | j :: elems' =>
      v ← dec j;
      vs ← dec_all dec elems';
      mret (v :: vs)
  end.

Definition dec_slice {T : Type} (ty : string) (dec : Dec T) : Dec (list T) :=
  fun j =>
    match j with
    | Null => Decoded_ok []
    | Array elems => dec_all dec elems
    | _ => type_error j ty
    end.

Fixpoint dec_entries {T : Type} (dec : Dec T) (ms : Members) (m : gmap string T)
  : Decoded (gmap string T) :=
  match ms with
  | [] => Decoded_ok m
  | (k, (_, j)) :: ms' =>
      v ← dec j;
      dec_entries dec ms' (<[k := v]> m)
  end.

Definition dec_map {T : Type} (ty : string) (dec : Dec T) : Dec (gmap string T) :=
  fun j =>
    match j with
    | Null => Decoded_ok ∅
    | Object ms => dec_entries dec ms ∅
    | _ => type_error j ty
    end.

(** A value stored in an [interface{}]. *)
Fixpoint to_Value (j : Json) : Value :=
  match j with
  | Null => VNil
  | Bool b => VBool b
  | Number lit => VFloat64 lit
  | Str s => VString s
  | Array elems => VSlice (List.map to_Value elems)
  | Object ms =>
      VMap (foldl (fun m kv => <[fst kv := to_Value (snd (snd kv))]> m) ∅ ms)
  end.

Definition dec_interface_map : Dec (gmap string Value) :=
  fun j =>
    match to_Value j with
    | VNil => Decoded_ok ∅
    | VMap m => Decoded_ok m
    | _ => type_error j "map[string]interface {}"
    end.

(** A slice field that must tell [nil] from empty. *)
Definition dec_nilable_slice {T : Type} (ty : string) (dec : Dec T)
  : Dec (option (list T)) :=
  fun j =>
    match j with
    | Null => Decoded_ok None
    | Array elems => vs ← dec_all dec elems; mret (Some vs)
    | _ => type_error j ty
    end.

Definition unmarshal {T : Type} (dec : Dec T) : Unmarshal T :=
  fun raw =>
    match parse raw with
    | Some j => dec j
    | None => Decoded_err "json: syntax error"
    end.

(** *** The structs of the program, by their field types and tags *)

Definition dec_GenericEvent : Dec GenericEvent :=
  dec_struct "GenericEvent" (fun ms =>
    Records ←
      get (dec_nilable_slice "[]map[string]interface {}" dec_interface_map)
        ms "Records";
    Id ← get dec_string ms "id";
    DetailType ← get dec_string ms "detail-type";
    Source ← get dec_string ms "source";
    Test ← get dec_string ms "test";
    mret (GenericEvent.mk Records Id DetailType Source Test)).

Definition dec_SMSMessageAttribute : Dec SMSMessageAttribute :=
  dec_struct "SMSMessageAttribute" (fun ms =>
    Type_ ← get dec_string ms "Type";
    Value ← get dec_string ms "Value";
    mret (SMSMessageAttribute.mk Type_ Value)).

Definition dec_SNSMessage : Dec SNSMessage :=
  dec_struct "SNSMessage" (fun ms =>
    SignatureVersion ← get dec_string ms "SignatureVersion";
    Timestamp ← get dec_string ms "Timestamp";
    Signature ← get dec_string ms "Signature";
    SigningCertUrl ← get dec_string ms "SigningCertUrl";
    MessageId ← get dec_string ms "MessageId";
    Message ← get dec_string ms "Message";
    MessageAttributes ←
      get (dec_map "map[string]SMSMessageAttribute" dec_SMSMessageAttribute)
        ms "MessageAttributes";
    Type_ ← get dec_string ms "Type";
    UnsubscribeUrl ← get dec_string ms "UnsubscribeUrl";
    TopicArn ← get dec_string ms "TopicArn";
    Subject ← get dec_string ms "Subject";
    mret (SNSMessage.mk SignatureVersion Timestamp Signature SigningCertUrl MessageId
            Message MessageAttributes Type_ UnsubscribeUrl TopicArn Subject)).

Definition dec_SNSRecord : Dec SNSRecord :=
  dec_struct "SNSRecord" (fun ms =>
    EventVersion ← get dec_string ms "EventVersion";
    EventSubscriptionArn ← get dec_string ms "EventSubscriptionArn";
    EventSource ← get dec_string ms "EventSource";
    Sns ← get dec_SNSMessage ms "Sns";
    mret (SNSRecord.mk EventVersion EventSubscriptionArn EventSource Sns)).

Definition dec_SNSRecordList : Dec SNSRecordList :=
  dec_struct "SNSRecordList" (fun ms =>
    Records ← get (dec_slice "[]SNSRecord" dec_SNSRecord) ms "Records";
    mret (SNSRecordList.mk Records)).

Definition dec_CloudwatchAlarmTriggerDimension : Dec CloudwatchAlarmTriggerDimension :=
  dec_struct "CloudwatchAlarmTriggerDimension" (fun ms =>
    Name ← get dec_string ms "name";
    Value ← get dec_string ms "value";
    mret (CloudwatchAlarmTriggerDimension.mk Name Value)).

Definition dec_CloudwatchAlarmTrigger : Dec CloudwatchAlarmTrigger :=
  dec_struct "CloudwatchAlarmTrigger" (fun ms =>
    MetricName ← get dec_string ms "MetricName";
    Namespace ← get dec_string ms "Namespace";
    Statistic ← get dec_string ms "Statistic";
    Unit ← get dec_string ms "Unit";
    Dimensions ←
      get (dec_slice "[]CloudwatchAlarmTriggerDimension" dec_CloudwatchAlarmTriggerDimension)
        ms "Dimensions";
    Period ← get dec_int ms "Period";
    EvaluationPeriods ← get dec_int ms "EvaluationPeriods";
    ComparisonOperator ← get dec_string ms "ComparisonOperator";
    Threshold ← get dec_float32 ms "Threshold";
    mret (CloudwatchAlarmTrigger.mk MetricName Namespace Statistic Unit Dimensions
            Period EvaluationPeriods ComparisonOperator Threshold)).

Definition dec_CloudwatchAlarm : Dec CloudwatchAlarm :=
  dec_struct "CloudwatchAlarm" (fun ms =>
    AlarmName ← get dec_string ms "AlarmName";
    AlarmDescription ← get dec_string ms "AlarmDescription";
    AWSAccountId ← get dec_string ms "AWSAccountId";
    NewStateValue ← get dec_string ms "NewStateValue";
    NewStateReason ← get dec_string ms "NewStateReason";
    StateChangeTime ← get dec_string ms "StateChangeTime";
    Region ← get dec_string ms "Region";
    OldStateValue ← get dec_string ms "OldStateValue";
    Trigger ← get dec_CloudwatchAlarmTrigger ms "Trigger";
    mret (CloudwatchAlarm.mk AlarmName AlarmDescription AWSAccountId NewStateValue
            NewStateReason StateChangeTime Region OldStateValue Trigger)).

Definition dec_CloudwatchEvent : Dec CloudwatchEvent :=
  dec_struct "CloudwatchEvent" (fun ms =>
    Id ← get dec_string ms "id";
    DetailType ← get dec_string ms "detail-type";
    Source ← get dec_string ms "source";
    Account ← get dec_string ms "account";
    Time ← get dec_string ms "time";
    Region ← get dec_string ms "region";
    Resources ← get (dec_slice "[]string" dec_string) ms "resources";
    Detail ← get_raw ms "detail";
    mret (CloudwatchEvent.mk Id DetailType Source Account Time Region Resources Detail)).

Definition dec_DetailEC2StateChange : Dec DetailEC2StateChange :=
  dec_struct "DetailEC2StateChange" (fun ms =>
    InstanceId ← get dec_string ms "instance-id";
    State ← get dec_string ms "state";
    mret (DetailEC2StateChange.mk InstanceId State)).

Definition dec_DetailAutoScalingLifecycleEvent : Dec DetailAutoScalingLifecycleEvent :=
  dec_struct "DetailAutoScalingLifecycleEvent" (fun ms =>
    LifecycleActionToken ← get dec_string ms "LifecycleActionToken";
    AutoScalingGroupName ← get dec_string ms "AutoScalingGroupName";
    LifecycleHookName ← get dec_string ms "LifecycleHookName";
    EC2InstanceId ← get dec_string ms "EC2InstanceId";
    LifecycleTransition ← get dec_string ms "LifecycleTransition";
    NotificationMetadata ← get dec_string ms "NotificationMetadata";
    mret (DetailAutoScalingLifecycleEvent.mk LifecycleActionToken AutoScalingGroupName
            LifecycleHookName EC2InstanceId LifecycleTransition NotificationMetadata)).

Definition dec_DetailAutoScalingEC2EventDetails : Dec DetailAutoScalingEC2EventDetails :=
  dec_struct "DetailAutoScalingEC2EventDetails" (fun ms =>
    AvailabilityZone ← get dec_string ms "Availability Zone";
    SubnetID ← get dec_string ms "Subnet ID";
    mret (DetailAutoScalingEC2EventDetails.mk AvailabilityZone SubnetID)).

Definition dec_DetailAutoScalingEC2Event : Dec DetailAutoScalingEC2Event :=
  dec_struct "DetailAutoScalingEC2Event" (fun ms =>
    StatusCode ← get dec_string ms "StatusCode";
    AutoScalingGroupName ← get dec_string ms "AutoScalingGroupName";
    ActivityId ← get dec_string ms "ActivityId";
    Details ← get dec_DetailAutoScalingEC2EventDetails ms "Details";
    RequestId ← get dec_string ms "RequestId";
    EndTime ← get dec_string ms "EndTime";
    EC2InstanceId ← get dec_string ms "EC2InstanceId";
    StartTime ← get dec_string ms "StartTime";
    Cause ← get dec_string ms "Cause";
    mret (DetailAutoScalingEC2Event.mk StatusCode AutoScalingGroupName ActivityId
            Details RequestId EndTime EC2InstanceId StartTime Cause)).

Definition GenericEvent_json : Unmarshal GenericEvent := unmarshal dec_GenericEvent.
Definition SNSRecordList_json : Unmarshal SNSRecordList := unmarshal dec_SNSRecordList.
Definition CloudwatchAlarm_json : Unmarshal CloudwatchAlarm := unmarshal dec_CloudwatchAlarm.
Definition CloudwatchEvent_json : Unmarshal CloudwatchEvent := unmarshal dec_CloudwatchEvent.
Definition DetailEC2StateChange_json : Unmarshal DetailEC2StateChange :=
  unmarshal dec_DetailEC2StateChange.
Definition DetailAutoScalingLifecycleEvent_json : Unmarshal DetailAutoScalingLifecycleEvent :=
  unmarshal dec_DetailAutoScalingLifecycleEvent.
Definition DetailAutoScalingEC2Event_json : Unmarshal DetailAutoScalingEC2Event :=
  unmarshal dec_DetailAutoScalingEC2Event.
End GoJSON.

(** ** What a run did, read off the world *)

Definition slack_request (n : SlackNotifier) (msg : SlackMessage) : Request :=
  Request.mk (SlackNotifier.webhook n) "application/json" (SlackPayload msg).

Definition pagerduty_request (req : PagerdutyIncidentRequest) : Request :=
  Request.mk pagerduty_endpoint "application/json" (PagerdutyPayload req).

Definition slack_message_of (r : Request) : option SlackMessage :=
  match Request.body r with
  | SlackPayload msg => Some msg
  | PagerdutyPayload _ => None
  end.

Definition incident_of (r : Request) : option PagerdutyIncidentRequest :=
  match Request.body r with
  | SlackPayload _ => None
  | PagerdutyPayload req => Some req
  end.

(** The chat messages and the incidents sent so far, oldest first. *)
Definition slack_messages (w : World) : list SlackMessage :=
  omap slack_message_of (World.posts w).

Definition incidents (w : World) : list PagerdutyIncidentRequest :=
  omap incident_of (World.posts w).

(** The world after a run, and what the run gave. *)
Definition after {A : Type} (m : Go A) (w : World) : World := snd (m w).
Definition outcome {A : Type} (m : Go A) (w : World) : Outcome A := fst (m w).

(** The world after [http.Post] and the two log lines of a sender. *)
Definition posted (r : Request) (line : string) (w : World) : World :=
  World.mk (World.net w) (World.posts w ++ [r]) (World.logs w ++ [line]).

Definition logged (line : string) (w : World) : World :=
  World.mk (World.net w) (World.posts w) (World.logs w ++ [line]).

Definition nil_dereference : string :=
  "runtime error: invalid memory address or nil pointer dereference".

(** The value of the last dimension called [name], if there is one. *)
Definition last_dimension_value (name : string)
    (dimensions : list CloudwatchAlarmTriggerDimension) : option string :=
  CloudwatchAlarmTriggerDimension.Value <$>
    last (List.filter
            (fun d => String.eqb (CloudwatchAlarmTriggerDimension.Name d) name)
            dimensions).

(** The concatenation of the strings of a list, in list order. *)
Definition concat_strings (l : list string) : string := foldr String.append "" l.

(** The values of the narrow (short) fields of a chat message. *)
Definition narrow_values (msg : SlackMessage) : list string :=
  a ← SlackMessage.Attachments msg;
  SlackField.Value <$> List.filter SlackField.Short (SlackAttachment.Fields a).

(** The chat message and the incident of an alarm record, in closed form
    (the loops of [processSNSRecord] are related to them by
    [dimension_fields_loop] and [incident_loop]). *)
Definition alarm_slack_message (subject : string) (alarm : CloudwatchAlarm)
  : SlackMessage :=
  let trigger := CloudwatchAlarm.Trigger alarm in
  SlackMessage.mk [
    SlackAttachment.mk (CloudwatchAlarm.NewStateReason alarm)
      (if strings_Contains subject "ALARM:" then ColorError else ColorSuccess)
      ([ SlackField.mk subject (CloudwatchAlarm.NewStateReason alarm) false ] ++
       ((fun d => SlackField.mk (CloudwatchAlarmTriggerDimension.Name d)
                    (CloudwatchAlarmTriggerDimension.Value d) true)
          <$> CloudwatchAlarmTrigger.Dimensions trigger) ++
       [ SlackField.mk "Namespace" (CloudwatchAlarmTrigger.Namespace trigger) true;
         SlackField.mk "MetricName" (CloudwatchAlarmTrigger.MetricName trigger) true ]) ].

Definition alarm_incident (subject : string) (alarm : CloudwatchAlarm)
  : PagerdutyIncident :=
  let dimensions := CloudwatchAlarmTrigger.Dimensions (CloudwatchAlarm.Trigger alarm) in
  PagerdutyIncident.mk
    (subject +:+ "-" +:+ CloudwatchAlarm.NewStateReason alarm)
    ("incident" +:+ concat_strings (CloudwatchAlarmTriggerDimension.Value <$> dimensions))
    (PagerdutyIncidentDetails.mk
       (foldl (fun detailFields dv =>
                 <[CloudwatchAlarmTriggerDimension.Name dv :=
                     CloudwatchAlarmTriggerDimension.Value dv]> detailFields)
              ∅ dimensions)).

(** The request that [triggerIncident] builds from an incident. *)
Definition incident_request (p : PagerdutyNotifier) (incident : PagerdutyIncident)
  : PagerdutyIncidentRequest :=
  PagerdutyIncidentRequest.mk (PagerdutyNotifier.serviceKey p) "trigger"
    (PagerdutyIncident.Description incident)
    (PagerdutyIncident.IncidentKey incident)
    "AWS Event Processor"
    (PagerdutyIncident.Details incident).

(** ** Requests and their answers *)

(** The [n]-th request of the run came back with a response and no error. *)
Definition answered (w : World) (n : nat) : Prop :=
  exists res, World.net w n = PostResponse res.

(** Of the requests [rs] issued from the world [w] on: all were answered;
    all but the last were. *)
Definition all_answered (w : World) (rs : list Request) : Prop :=
  forall i, i < length rs -> answered w (length (World.posts w) + i).

Definition answered_but_last (w : World) (rs : list Request) : Prop :=
  forall i, S i < length rs -> answered w (length (World.posts w) + i).

(** A request as the two notifiers make them, for a webhook and a service
    key: JSON, and either a chat message for the webhook or a trigger event
    for the Pagerduty endpoint. *)
Definition sink_request (webhook serviceKey : string) (r : Request) : Prop :=
  Request.contentType r = "application/json" /\
  match Request.body r with
  | SlackPayload _ => Request.url r = webhook
  | PagerdutyPayload req =>
      Request.url r = pagerduty_endpoint /\
      PagerdutyIncidentRequest.ServiceKey req = serviceKey /\
      PagerdutyIncidentRequest.EventType req = "trigger" /\
      PagerdutyIncidentRequest.Client req = "AWS Event Processor"
  end.

(** ** Sample payloads and worlds

    The payloads follow the examples in the comments of sns.go; the worlds
    differ in what the network answers. *)
Module Sample.
Import GoJSON.

Definition slack : SlackNotifier :=
  SlackNotifier.mk "https://hooks.slack.com/services/T000/B000/XXXX".

Definition pagerduty : PagerdutyNotifier := PagerdutyNotifier.mk "0123456789abcdef".

(** Every request is answered with status 200. *)
Definition world_up : World :=
  World.mk (fun _ => PostResponse (Response.mk 200)) [] [].

(** Every request runs into the redirect limit of the HTTP client. *)
Definition world_redirecting : World :=
  World.mk (fun _ => PostRedirectError (Response.mk 302) "stopped after 10 redirects")
    [] [].

(** No request gets through. *)
Definition world_down : World :=
  World.mk (fun _ => PostTransportError "dial tcp: connect: connection refused") [] [].

(** A Cloudwatch alarm with the dimensions [az] and [db]. *)
Definition alarm_text : string :=
  text ("{'AlarmName':'replica-lag','AlarmDescription':'Replica lag is high.'," +:+
        "'AWSAccountId':'000000000000','NewStateValue':'ALARM'," +:+
        "'NewStateReason':'Threshold Crossed: 1 datapoint (10.0) was greater than " +:+
        "or equal to the threshold (1.0).'," +:+
        "'StateChangeTime':'2017-01-12T16:30:42.236+0000','Region':'EU - Ireland'," +:+
        "'OldStateValue':'OK','Trigger':{'MetricName':'ReplicaLag'," +:+
        "'Namespace':'AWS/RDS','Statistic':'SUM','Unit':null," +:+
        "'Dimensions':[{'name':'az','value':'us-east-1b'}," +:+
        "{'name':'db','value':'primary'}],'Period':300,'EvaluationPeriods':1," +:+
        "'ComparisonOperator':'GreaterThanOrEqualToThreshold','Threshold':1.0}}").

(** The same kind of alarm with two dimensions of the same name. *)
Definition alarm_text_repeated_name : string :=
  text ("{'NewStateReason':'Threshold Crossed','Trigger':{'MetricName':'CPU'," +:+
        "'Namespace':'AWS/EC2','Dimensions':[{'name':'host','value':'a'}," +:+
        "{'name':'host','value':'b'}]}}").

Definition sns_message (subject message : string) : SNSMessage :=
  SNSMessage.mk "1" "1970-01-01T00:00:00.000Z" "EXAMPLE" "EXAMPLE"
    "95df01b4-ee98-5cb9-9903-4c221d41eb5e" message ∅ "Notification" "EXAMPLE"
    "topicarn" subject.

Definition sns_record (subject message : string) : SNSRecord :=
  SNSRecord.mk "1.0" "eventsubscriptionarn" "aws:sns" (sns_message subject message).

Definition failing_record : SNSRecord :=
  sns_record "ALARM: replica-lag in EU - Ireland" alarm_text.

Definition recovered_record : SNSRecord :=
  sns_record "OK: replica-lag in EU - Ireland" alarm_text.

Definition repeated_name_record : SNSRecord :=
  sns_record "ALARM: cpu in EU - Ireland" alarm_text_repeated_name.

Definition plain_record : SNSRecord := sns_record "TestInvoke" "Hello from SNS!".

(** A record as it decodes from a text that gives only the event version,
    the event source, the subject and the message. *)
Definition bare_record (subject message : string) : SNSRecord :=
  SNSRecord.mk "1.0" "" "aws:sns"
    (SNSMessage.mk "" "" "" "" "" message ∅ "" "" "" subject).

(** A batch of three records; the second has an alarm subject and a message
    that is not JSON. *)
Definition batch_text : RawMessage :=
  text ("{'Records':[" +:+
        "{'EventVersion':'1.0','EventSource':'aws:sns'," +:+
        "'Sns':{'Subject':'TestInvoke','Message':'Hello from SNS!'}}," +:+
        "{'EventVersion':'1.0','EventSource':'aws:sns'," +:+
        "'Sns':{'Subject':'ALARM: replica-lag','Message':'Hello from SNS!'}}," +:+
        "{'EventVersion':'1.0','EventSource':'aws:sns'," +:+
        "'Sns':{'Subject':'TestInvoke','Message':'Goodbye from SNS!'}}]}").

Definition batch_first : SNSRecord := bare_record "TestInvoke" "Hello from SNS!".
Definition batch_second : SNSRecord := bare_record "ALARM: replica-lag" "Hello from SNS!".
Definition batch_third : SNSRecord := bare_record "TestInvoke" "Goodbye from SNS!".

(** Records from another service: S3 spells the key [eventSource]. *)
Definition s3_text : RawMessage :=
  text "{'Records':[{'eventVersion':'2.1','eventSource':'aws:s3','s3':{}}]}".

(** The EC2 state-change event of the comment in sns.go, with a state. *)
Definition ec2_text (state : string) : RawMessage :=
  text ("{'id':'7bf73129-1428-4cd3-a780-95db273d1602'," +:+
        "'detail-type':'EC2 Instance State-change Notification','source':'aws.ec2'," +:+
        "'account':'123456789012','time':'2015-11-11T21:29:54Z','region':'us-east-1'," +:+
        "'resources':['arn:aws:ec2:us-east-1:123456789012:instance/i-abcd1111']," +:+
        "'detail':{'instance-id':'i-abcd1111','state':'" +:+ state +:+ "'}}").

(** Another event of source [aws.ec2]. *)
Definition ec2_spot_text : RawMessage :=
  text ("{'id':'12345678-1234-1234-1234-123456789012'," +:+
        "'detail-type':'EC2 Spot Instance Interruption Warning','source':'aws.ec2'," +:+
        "'account':'123456789012','time':'2015-11-11T21:29:54Z','region':'us-east-1'," +:+
        "'resources':['arn:aws:ec2:us-east-1b:instance/i-abcd1111']," +:+
        "'detail':{'instance-id':'i-abcd1111','instance-action':'terminate'}}").

(** The lifecycle event of the comment in sns.go. *)
Definition lifecycle_detail_text : RawMessage :=
  text ("{'LifecycleActionToken':'c613620e-07e2-4ed2-a9e2-ef8258911ade'," +:+
        "'AutoScalingGroupName':'my-asg','LifecycleHookName':'my-lifecycle-hook'," +:+
        "'EC2InstanceId':'i-1234567890abcdef0'," +:+
        "'LifecycleTransition':'autoscaling:EC2_INSTANCE_LAUNCHING'," +:+
        "'NotificationMetadata':'additional-info'}").

Definition lifecycle_event : CloudwatchEvent :=
  CloudwatchEvent.mk "6a7e8feb-b491-4cf7-a9f1-bf3703467718"
    "EC2 Instance-launch Lifecycle Action" "aws.autoscaling" "123456789012"
    "2015-12-22T18:43:48Z" "us-east-1" [] lifecycle_detail_text.

Definition ec2_event (state : string) : CloudwatchEvent :=
  CloudwatchEvent.mk "7bf73129-1428-4cd3-a780-95db273d1602"
    "EC2 Instance State-change Notification" "aws.ec2" "123456789012"
    "2015-11-11T21:29:54Z" "us-east-1"
    ["arn:aws:ec2:us-east-1:123456789012:instance/i-abcd1111"]
    (text ("{'instance-id':'i-abcd1111','state':'" +:+ state +:+ "'}")).

(** The environment of the function, complete and with one setting missing. *)
Definition env_full : gmap string string :=
  {[ "slack_webhook" := "https://hooks.slack.com/services/T000/B000/XXXX";
     "pagerduty_key" := "0123456789abcdef" ]}.

Definition env_without_webhook : gmap string string :=
  {[ "pagerduty_key" := "0123456789abcdef" ]}.

Definition env_without_key : gmap string string :=
  {[ "slack_webhook" := "https://hooks.slack.com/services/T000/B000/XXXX" ]}.

(** The chat request is answered; the request to Pagerduty runs into the
    redirect limit. *)
Definition world_paging_redirecting : World :=
  World.mk (fun n => match n with
                     | O => PostResponse (Response.mk 200)
                     | S _ => PostRedirectError (Response.mk 302)
                                "stopped after 10 redirects"
                     end) [] [].

(** The string literal of JSON that denotes [s], for a text of printable
    ASCII: quotation marks and backslashes are escaped. *)
Fixpoint json_escape (s : string) : string :=
  match s with
  | EmptyString => EmptyString
  | String c s' =>
      if Ascii.eqb c quote || Ascii.eqb c backslash
      then String backslash (String c (json_escape s'))
      else String c (json_escape s')
  end.

Definition json_string (s : string) : string :=
  String quote (json_escape s) +:+ String quote "".

(** An SNS batch with one record, the failing alarm. *)
Definition alarm_batch_text : RawMessage :=
  text "{'Records':[{'EventVersion':'1.0','EventSource':'aws:sns'," +:+
  text "'Sns':{'Subject':'ALARM: replica-lag in EU - Ireland','Message':" +:+
  json_string alarm_text +:+ "}}]}".

(** An SNS batch of two plain messages. *)
Definition plain_batch_text : RawMessage :=
  text ("{'Records':[" +:+
        "{'EventVersion':'1.0','EventSource':'aws:sns'," +:+
        "'Sns':{'Subject':'TestInvoke','Message':'Hello from SNS!'}}," +:+
        "{'EventVersion':'1.0','EventSource':'aws:sns'," +:+
        "'Sns':{'Subject':'TestInvoke','Message':'Goodbye from SNS!'}}]}").

(** An SNS batch whose record has a number for a subject. *)
Definition odd_batch_text : RawMessage :=
  text "{'Records':[{'EventSource':'aws:sns','Sns':{'Subject':5,'Message':'m'}}]}".

(** Two alarms whose dimension values are cut differently. *)
Definition alarm_text_ab_c : string :=
  text ("{'NewStateReason':'Threshold Crossed','Trigger':{'MetricName':'CPU'," +:+
        "'Namespace':'AWS/EC2','Dimensions':[{'name':'cluster','value':'ab'}," +:+
        "{'name':'node','value':'c'}]}}").

Definition alarm_text_a_bc : string :=
  text ("{'NewStateReason':'Threshold Crossed','Trigger':{'MetricName':'Disk'," +:+
        "'Namespace':'AWS/EBS','Dimensions':[{'name':'host','value':'a'}," +:+
        "{'name':'volume','value':'bc'}]}}").

Definition ab_c_record : SNSRecord := sns_record "ALARM: cpu" alarm_text_ab_c.
Definition a_bc_record : SNSRecord := sns_record "ALARM: disk" alarm_text_a_bc.

(** A scheduled event, an event of another source, an autoscaling event,
    and an EC2 state-change event whose state is a number. *)
Definition scheduled_text : RawMessage :=
  text ("{'id':'cdc73f9d-aea9-11e3-9d5a-835b769c0d9c','detail-type':'Scheduled Event'," +:+
        "'source':'aws.events','account':'123456789012','time':'1970-01-01T00:00:00Z'," +:+
        "'region':'us-east-1','resources':[],'detail':{}}").

Definition health_text : RawMessage :=
  text ("{'id':'7bf73129-1428-4cd3-a780-95db273d1602','detail-type':'AWS Health Event'," +:+
        "'source':'aws.health','account':'123456789012','time':'2016-06-05T06:27:57Z'," +:+
        "'region':'us-west-2','resources':[],'detail':{ 'service' : 'EC2' }}").

Definition launch_unsuccessful_text : RawMessage :=
  text ("{'id':'3e3c153a-8339-4e30-8c35-687ebef853fe'," +:+
        "'detail-type':'EC2 Instance Launch Unsuccessful','source':'aws.autoscaling'," +:+
        "'account':'123456789012','time':'2015-11-11T21:31:47Z','region':'us-east-1'," +:+
        "'resources':[],'detail':{'StatusCode':'Failed','EC2InstanceId':'i-b188560f'}}").

Definition ec2_odd_state_text : RawMessage :=
  text ("{'id':'7bf73129-1428-4cd3-a780-95db273d1602'," +:+
        "'detail-type':'EC2 Instance State-change Notification','source':'aws.ec2'," +:+
        "'detail':{'instance-id':'i-abcd1111','state':5}}").

(** An event whose resources are a string, not a list. *)
Definition odd_event_text : RawMessage :=
  text "{'id':'7bf73129','source':'aws.ec2','resources':'none','detail':{}}".
End Sample.

(** * Properties *)

(** Case analysis on the condition of the first [if] of the goal. *)
Ltac case_cond :=
  match goal with
  | |- context [if ?c then _ else _] => destruct c eqn:?
  end.

(** ** The monad and the two senders *)

Lemma bind_run {A B : Type} (m : Go A) (f : A -> Go B) (w : World) :
  (m ≫= f) w =
    match m w with
    | (Returned a, w') => f a w'
    | (Panicked reason, w') => (Panicked reason, w')
    end.
Proof. reflexivity. Qed.

(** Handing an error on as it is, [if err != nil { return err }; return nil],
    is the call itself. *)
Lemma return_err_run (m : Go error) (w : World) :
  (err ← m; match err with Some e => mret (Some e) | None => mret None end) w = m w.
Proof.
  rewrite bind_run. destruct (m w) as [[[e|]|reason] w']; reflexivity.
Qed.

Lemma sendMessage_run (n : SlackNotifier) (msg : SlackMessage) (w : World) :
  sendMessage n msg w =
    let w' := posted (slack_request n msg) "Sending Slack message..." w in
    match World.net w (length (World.posts w)) with
    | PostResponse _ => (Returned None, logged "Slack message sent" w')
    | PostRedirectError _ e =>
        (Returned (Some ("Failed to send Slack message - got error: " +:+ e)), w')
    | PostTransportError _ => (Panicked nil_dereference, w')
    end.
Proof.
  unfold sendMessage, json_Marshal_SlackMessage.
  rewrite bind_run. cbn [log_Print]. rewrite bind_run.
  unfold http_Post. cbn [World.net World.posts World.logs].
  destruct (World.net w (length (World.posts w))); reflexivity.
Qed.

Lemma triggerIncident_run (p : PagerdutyNotifier) (incident : PagerdutyIncident)
    (w : World) :
  triggerIncident p incident w =
    let req := PagerdutyIncidentRequest.mk (PagerdutyNotifier.serviceKey p) "trigger"
                 (PagerdutyIncident.Description incident)
                 (PagerdutyIncident.IncidentKey incident)
                 "AWS Event Processor"
                 (PagerdutyIncident.Details incident) in
    let w' := posted (pagerduty_request req) "Triggering Pagerduty incident..." w in
    match World.net w (length (World.posts w)) with
    | PostResponse _ => (Returned None, logged "Pagerduty incident triggered" w')
    | PostRedirectError _ e =>
        (Returned (Some ("failed to trigger Pagerduty Incident - got error: " +:+ e)), w')
    | PostTransportError _ => (Panicked nil_dereference, w')
    end.
Proof.
  unfold triggerIncident, json_Marshal_PagerdutyIncidentRequest.
  rewrite bind_run. cbn [log_Print]. rewrite bind_run.
  unfold http_Post. cbn [World.net World.posts World.logs].
  destruct (World.net w (length (World.posts w))); reflexivity.
Qed.

(** A sender issues exactly one request, whatever the network answers. *)
Lemma sendMessage_posts (n : SlackNotifier) (msg : SlackMessage) (w : World) :
  World.posts (after (sendMessage n msg) w) = World.posts w ++ [slack_request n msg].
Proof.
  unfold after. rewrite sendMessage_run. cbn zeta.
  destruct (World.net w (length (World.posts w))); reflexivity.
Qed.

Lemma triggerIncident_posts (p : PagerdutyNotifier) (incident : PagerdutyIncident)
    (w : World) :
  exists req,
    World.posts (after (triggerIncident p incident) w)
      = World.posts w ++ [pagerduty_request req].
Proof.
  unfold after. rewrite triggerIncident_run. cbn zeta.
  destruct (World.net w (length (World.posts w))); eexists; reflexivity.
Qed.

Lemma slack_messages_app (w : World) (rs : list Request) (w' : World) :
  World.posts w' = World.posts w ++ rs ->
  slack_messages w' = slack_messages w ++ omap slack_message_of rs.
Proof. unfold slack_messages. intros ->. apply omap_app. Qed.

Lemma incidents_app (w : World) (rs : list Request) (w' : World) :
  World.posts w' = World.posts w ++ rs ->
  incidents w' = incidents w ++ omap incident_of rs.
Proof. unfold incidents. intros ->. apply omap_app. Qed.

Lemma sendMessage_slack_messages (n : SlackNotifier) (msg : SlackMessage) (w : World) :
  slack_messages (after (sendMessage n msg) w) = slack_messages w ++ [msg].
Proof. apply (slack_messages_app w [slack_request n msg]), sendMessage_posts. Qed.

Lemma sendMessage_incidents (n : SlackNotifier) (msg : SlackMessage) (w : World) :
  incidents (after (sendMessage n msg) w) = incidents w.
Proof.
  rewrite (incidents_app w [slack_request n msg]) by apply sendMessage_posts.
  apply app_nil_r.
Qed.

Lemma triggerIncident_slack_messages (p : PagerdutyNotifier)
    (incident : PagerdutyIncident) (w : World) :
  slack_messages (after (triggerIncident p incident) w) = slack_messages w.
Proof.
  destruct (triggerIncident_posts p incident w) as [req Hposts].
  rewrite (slack_messages_app w [pagerduty_request req]) by exact Hposts.
  apply app_nil_r.
Qed.

(** The world after a call does not depend on what is made of its result. *)
Lemma after_bind_ret {A B : Type} (m : Go A) (f : A -> B) (w : World) :
  after (a ← m; mret (f a)) w = after m w.
Proof.
  unfold after. rewrite bind_run. destruct (m w) as [[a|reason] w']; reflexivity.
Qed.

Lemma after_wrap_err (m : Go error) (wrap : string -> string) (w : World) :
  after (err ← m;
         match err with
         | Some e => mret (errors_New (wrap e))
         | None => mret None
         end) w = after m w.
Proof.
  unfold after. rewrite bind_run. destruct (m w) as [[[e|]|reason] w']; reflexivity.
Qed.

Lemma after_return_err (m : Go error) (w : World) :
  after (err ← m; match err with Some e => mret (Some e) | None => mret None end) w
    = after m w.
Proof. unfold after. by rewrite return_err_run. Qed.

(** main.go's [contains] decides membership. *)
Lemma contains_spec (s : list string) (el : string) :
  contains s el = true <-> el ∈ s.
Proof.
  induction s as [|v s IH]; cbn.
  - split; [discriminate | by intros ?%elem_of_nil].
  - destruct (String.eqb_spec v el) as [-> | Hne].
    + split; [intros _; apply elem_of_cons; by left | done].
    + rewrite IH, elem_of_cons.
      split; [by right | intros [Heq | Hin]; [congruence | exact Hin]].
Qed.

Lemma string_app_assoc (a b c : string) : (a +:+ b) +:+ c = a +:+ (b +:+ c).
Proof.
  induction a as [|ch a IH]; [reflexivity|].
  change (String ch ((a +:+ b) +:+ c) = String ch (a +:+ (b +:+ c))). by f_equal.
Qed.

Lemma string_app_nil_r (a : string) : a +:+ "" = a.
Proof.
  induction a as [|ch a IH]; [reflexivity|].
  change (String ch (a +:+ "") = String ch a). by f_equal.
Qed.

(** ** The two loops over the dimensions of an alarm *)

Section Dimensions.
Implicit Types (d : CloudwatchAlarmTriggerDimension) (name : string).
Implicit Types (dimensions : list CloudwatchAlarmTriggerDimension).

(** The loop that appends one narrow field per dimension. *)
Lemma dimension_fields_loop (fields : list SlackField) dimensions :
  foldl (fun fields d =>
           fields ++ [ SlackField.mk (CloudwatchAlarmTriggerDimension.Name d)
                         (CloudwatchAlarmTriggerDimension.Value d) true ])
        fields dimensions
  = fields ++
    ((fun d => SlackField.mk (CloudwatchAlarmTriggerDimension.Name d)
                 (CloudwatchAlarmTriggerDimension.Value d) true) <$> dimensions).
Proof.
  revert fields. induction dimensions as [|d dimensions IH]; intros fields; cbn.
  - by rewrite app_nil_r.
  - by rewrite IH, <- app_assoc.
Qed.

(** The loop that builds the incident key and the detail fields. *)
Lemma incident_loop (incidentKey : string) (detailFields : gmap string string)
    dimensions :
  foldl (fun '(incidentKey, detailFields) dv =>
           (incidentKey +:+ CloudwatchAlarmTriggerDimension.Value dv,
            <[CloudwatchAlarmTriggerDimension.Name dv :=
                CloudwatchAlarmTriggerDimension.Value dv]> detailFields))
        (incidentKey, detailFields) dimensions
  = (incidentKey +:+
       concat_strings (CloudwatchAlarmTriggerDimension.Value <$> dimensions),
     foldl (fun detailFields dv =>
              <[CloudwatchAlarmTriggerDimension.Name dv :=
                  CloudwatchAlarmTriggerDimension.Value dv]> detailFields)
           detailFields dimensions).
Proof.
  revert incidentKey detailFields.
  induction dimensions as [|d dimensions IH]; intros incidentKey detailFields.
  - cbn. by rewrite string_app_nil_r.
  - cbn [foldl]. rewrite IH, fmap_cons. unfold concat_strings. cbn [foldr].
    by rewrite string_app_assoc.
Qed.

Lemma last_dimension_value_cons name d dimensions :
  last_dimension_value name (d :: dimensions) =
    match last_dimension_value name dimensions with
    | Some v => Some v
    | None =>
        if String.eqb (CloudwatchAlarmTriggerDimension.Name d) name
        then Some (CloudwatchAlarmTriggerDimension.Value d) else None
    end.
Proof.
  unfold last_dimension_value. cbn [List.filter].
  destruct (String.eqb (CloudwatchAlarmTriggerDimension.Name d) name).
  - rewrite last_cons. by destruct (last _).
  - by destruct (last _).
Qed.

(** In the detail fields a name reads as the value of the last dimension
    that has it. *)
Lemma detail_fields_lookup (detailFields : gmap string string) dimensions name :
  foldl (fun detailFields dv =>
           <[CloudwatchAlarmTriggerDimension.Name dv :=
               CloudwatchAlarmTriggerDimension.Value dv]> detailFields)
        detailFields dimensions !! name
  = match last_dimension_value name dimensions with
    | Some v => Some v
    | None => detailFields !! name
    end.
Proof.
  revert detailFields.
  induction dimensions as [|d dimensions IH]; intros detailFields; [reflexivity|].
  cbn [foldl]. rewrite IH, last_dimension_value_cons.
  destruct (last_dimension_value name dimensions); [reflexivity|].
  destruct (String.eqb_spec (CloudwatchAlarmTriggerDimension.Name d) name) as [<- | Hne].
  - apply lookup_insert_eq.
  - by apply lookup_insert_ne.
Qed.

(** When no two dimensions share a name, each reads as its own value. *)
Lemma last_dimension_value_NoDup dimensions d :
  NoDup (CloudwatchAlarmTriggerDimension.Name <$> dimensions) ->
  d ∈ dimensions ->
  last_dimension_value (CloudwatchAlarmTriggerDimension.Name d) dimensions
    = Some (CloudwatchAlarmTriggerDimension.Value d).
Proof.
  induction dimensions as [|d' dimensions IH]; intros Hnodup Hin.
  - by apply elem_of_nil in Hin.
  - rewrite fmap_cons in Hnodup. apply NoDup_cons in Hnodup as [Hfresh Hnodup].
    rewrite last_dimension_value_cons.
    apply elem_of_cons in Hin as [-> | Hin].
    + rewrite String.eqb_refl.
      destruct (last_dimension_value _ dimensions) as [v|] eqn:Hlast; [|reflexivity].
      exfalso. apply Hfresh. unfold last_dimension_value in Hlast.
      destruct (last _) as [d''|] eqn:Hd''; [|discriminate].
      apply last_Some_elem_of, list_elem_of_In, List.filter_In in Hd'' as [Hd'' Hname].
      apply String.eqb_eq in Hname. rewrite <- Hname.
      apply list_elem_of_fmap. exists d''. by rewrite <- list_elem_of_In in Hd''.
    + by rewrite IH.
Qed.
End Dimensions.

(** ** The senders when the transport fails *)

(** C9 (not met by the code). When [http.Post] fails at the
    transport level it gives a [nil] response, and both senders call
    [res.Body.Close()] before they look at the error: the run panics with a
    nil dereference, and no error is returned to the caller. *)
Theorem C9_transport_failure_panics (n : SlackNotifier) (p : PagerdutyNotifier)
    (msg : SlackMessage) (incident : PagerdutyIncident) (w : World) (e : string) :
  World.net w (length (World.posts w)) = PostTransportError e ->
  outcome (sendMessage n msg) w = Panicked nil_dereference /\
  outcome (triggerIncident p incident) w = Panicked nil_dereference.
Proof.
  intros Hnet. unfold outcome.
  rewrite sendMessage_run, triggerIncident_run. cbn zeta.
  rewrite Hnet. split; reflexivity.
Qed.

Section Properties.
Context {UnmarshalGenericEvent : Unmarshal GenericEvent}
        {UnmarshalSNSRecordList : Unmarshal SNSRecordList}
        {UnmarshalCloudwatchAlarm : Unmarshal CloudwatchAlarm}
        {UnmarshalCloudwatchEvent : Unmarshal CloudwatchEvent}
        {UnmarshalDetailEC2StateChange : Unmarshal DetailEC2StateChange}.

Implicit Types (slackNotifier : SlackNotifier) (pagerdutyNotifier : PagerdutyNotifier).
Implicit Types (raw : RawMessage) (w : World).

(** *** The dispatcher *)

(** C4. Once the envelope is decoded, [processMessage] runs as exactly one
    of three things: the SNS record processor, when the record list has a
    first record whose [EventSource] is the string [aws:sns]; the
    Cloudwatch event processor, when the list is nil or empty; and
    otherwise nothing but one log line, returning [nil]. *)
Theorem C4_processMessage_routes slackNotifier pagerdutyNotifier raw w
    (data : GenericEvent) :
  json_Unmarshal raw = Decoded_ok data ->
  (forall first rest,
      GenericEvent.Records data = Some (first :: rest) ->
      first !! "EventSource" = Some (VString "aws:sns") ->
      processMessage slackNotifier pagerdutyNotifier raw w
        = processSNSRecords slackNotifier pagerdutyNotifier raw w) /\
  (GenericEvent.Records data = None \/ GenericEvent.Records data = Some [] ->
      processMessage slackNotifier pagerdutyNotifier raw w
        = processCloudwatchEvent slackNotifier pagerdutyNotifier raw w) /\
  (forall first rest,
      GenericEvent.Records data = Some (first :: rest) ->
      first !! "EventSource" <> Some (VString "aws:sns") ->
      processMessage slackNotifier pagerdutyNotifier raw w
        = (Returned None, logged "No SNS records to process" w)).
Proof.
  intros Hdata. unfold processMessage. rewrite Hdata.
  split; [|split].
  - intros first rest -> ->. cbn [interface_eq_string].
    rewrite String.eqb_refl. apply return_err_run.
  - intros [-> | ->]; apply return_err_run.
  - intros first rest -> Hsource.
    destruct (interface_eq_string (first !! "EventSource") "aws:sns") eqn:Heq;
      [|reflexivity].
    exfalso. apply Hsource. unfold interface_eq_string in Heq.
    destruct (first !! "EventSource") as [[]|]; try discriminate.
    apply String.eqb_eq in Heq. by subst.
Qed.

(** A payload that does not decode as an envelope is refused before
    anything is done. *)
Lemma processMessage_malformed slackNotifier pagerdutyNotifier raw w (e : string) :
  json_Unmarshal (T := GenericEvent) raw = Decoded_err e ->
  processMessage slackNotifier pagerdutyNotifier raw w
    = (Returned (Some ("unsupported payload: " +:+ e)), w).
Proof. intros Hraw. unfold processMessage. by rewrite Hraw. Qed.

(** *** The Cloudwatch event processor *)

(** C10. An [aws.ec2] event whose detail-type is not the state-change
    notification is dropped: [processCloudwatchEvent] returns [nil] and
    leaves the world as it was. *)
Theorem C10_other_ec2_events_dropped slackNotifier pagerdutyNotifier raw w
    (event : CloudwatchEvent) :
  json_Unmarshal raw = Decoded_ok event ->
  CloudwatchEvent.Source event = "aws.ec2" ->
  CloudwatchEvent.DetailType event <> "EC2 Instance State-change Notification" ->
  processCloudwatchEvent slackNotifier pagerdutyNotifier raw w = (Returned None, w).
Proof.
  intros Hevent Hsource Htype. unfold processCloudwatchEvent.
  rewrite Hevent, Hsource, String.eqb_refl.
  destruct (String.eqb_spec (CloudwatchEvent.DetailType event)
              "EC2 Instance State-change Notification") as [Heq | _];
    [by destruct Htype | reflexivity].
Qed.

(** A record whose subject does not contain [ALARM:] sends no incident. *)
Lemma processSNSRecord_incidents_not_failing slackNotifier pagerdutyNotifier w
    (record : SNSRecord) :
  strings_Contains (SNSMessage.Subject (SNSRecord.Sns record)) "ALARM:" = false ->
  incidents (after (processSNSRecord slackNotifier pagerdutyNotifier record) w)
    = incidents w.
Proof.
  intros Halarm. unfold processSNSRecord. cbn zeta. rewrite Halarm.
  cbn [orb]. case_cond.
  - destruct (json_Unmarshal (SNSMessage.Message (SNSRecord.Sns record)))
      as [alarm | e]; [|reflexivity].
    rewrite after_return_err. apply sendMessage_incidents.
  - case_cond; unfold processSNSRecord_rds, processSNSRecord_plain; cbn zeta;
      rewrite after_return_err; apply sendMessage_incidents.
Qed.

(** C8. No event handled by [processCloudwatchEvent] sends an incident,
    whatever its source, detail-type and detail; and [processSNSRecord]
    sends one only for a subject that contains [ALARM:]. *)
Theorem C8_only_failing_alarms_page slackNotifier pagerdutyNotifier w :
  (forall raw,
      incidents (after (processCloudwatchEvent slackNotifier pagerdutyNotifier raw) w)
        = incidents w) /\
  (forall record : SNSRecord,
      incidents (after (processSNSRecord slackNotifier pagerdutyNotifier record) w)
        <> incidents w ->
      strings_Contains (SNSMessage.Subject (SNSRecord.Sns record)) "ALARM:" = true).
Proof.
  split.
  - intros raw. unfold processCloudwatchEvent.
    destruct (json_Unmarshal raw) as [event | e]; [|reflexivity].
    destruct (String.eqb (CloudwatchEvent.Source event) "aws.ec2").
    { case_cond; [|reflexivity].
      rewrite after_wrap_err. unfold processEC2StateChangeEvent.
      destruct (json_Unmarshal (CloudwatchEvent.Detail event)); [|reflexivity].
      cbn zeta. rewrite after_return_err. apply sendMessage_incidents. }
    destruct (String.eqb (CloudwatchEvent.Source event) "aws.events"); [reflexivity|].
    destruct (String.eqb (CloudwatchEvent.Source event) "aws.autoscaling").
    { rewrite after_wrap_err. unfold processAutoscalingEvent.
      case_cond; cbn zeta; rewrite after_return_err; apply sendMessage_incidents. }
    cbn zeta. rewrite after_return_err. apply sendMessage_incidents.
  - intros record Hsent.
    destruct (strings_Contains (SNSMessage.Subject (SNSRecord.Sns record)) "ALARM:")
      eqn:Halarm; [reflexivity|].
    by destruct Hsent; apply processSNSRecord_incidents_not_failing.
Qed.

(** C6. For an EC2 state-change event whose detail decodes, the one chat
    message sent is warn-yellow exactly when the decoded state is
    shutting-down, terminated, stopping or stopped, and info-blue exactly
    when it is any other state. *)
Theorem C6_ec2_state_color slackNotifier pagerdutyNotifier w
    (event : CloudwatchEvent) (eventDetail : DetailEC2StateChange) :
  json_Unmarshal (CloudwatchEvent.Detail event) = Decoded_ok eventDetail ->
  exists color,
    slack_messages (after (processEC2StateChangeEvent slackNotifier pagerdutyNotifier event) w)
      = slack_messages w ++
        [ SlackMessage.mk [
            SlackAttachment.mk "EC2 Instance State-change" color
              [ SlackField.mk "CloudWatch Event" "EC2 Instance State-change" false;
                SlackField.mk "instance-id"
                  (DetailEC2StateChange.InstanceId eventDetail) true;
                SlackField.mk "state"
                  (DetailEC2StateChange.State eventDetail) true ] ] ] /\
    (color = ColorWarn <->
       DetailEC2StateChange.State eventDetail
         ∈ ["shutting-down"; "terminated"; "stopping"; "stopped"]) /\
    (color = ColorInfo <->
       DetailEC2StateChange.State eventDetail
         ∉ ["shutting-down"; "terminated"; "stopping"; "stopped"]).
Proof.
  intros Hdetail. unfold processEC2StateChangeEvent. rewrite Hdetail. cbn zeta.
  eexists. split.
  - rewrite after_return_err. apply sendMessage_slack_messages.
  - rewrite <- contains_spec.
    destruct (contains ["shutting-down"; "terminated"; "stopping"; "stopped"]
                (DetailEC2StateChange.State eventDetail));
      (split; split; intros H; (reflexivity || discriminate || by destruct H)).
Qed.

(** C2 (not met by the code). [processAutoscalingEvent] sends
    one chat message whose narrow fields are all the empty string,
    whatever the event's detail holds: the descriptor is declared and
    read, and the detail is never decoded into it. *)
Theorem C2_autoscaling_detail_not_decoded slackNotifier pagerdutyNotifier w
    (event : CloudwatchEvent) :
  exists msg,
    slack_messages (after (processAutoscalingEvent slackNotifier pagerdutyNotifier event) w)
      = slack_messages w ++ [msg] /\
    narrow_values msg =
      if contains ["EC2 Instance-launch Lifecycle Action";
                   "EC2 Instance-terminate Lifecycle Action"]
                  (CloudwatchEvent.DetailType event)
      then [""; ""; ""] else [""; ""; ""; ""].
Proof.
  unfold processAutoscalingEvent.
  destruct (contains ["EC2 Instance-launch Lifecycle Action";
                      "EC2 Instance-terminate Lifecycle Action"]
              (CloudwatchEvent.DetailType event));
    cbn zeta; rewrite after_return_err; eexists;
    (split; [apply sendMessage_slack_messages | reflexivity]).
Qed.

(** *** The SNS record processor *)

(** How [processSNSRecord] runs on an alarm record that decodes: the chat
    message is sent; if that returned [nil] and the alarm is failing, the
    incident is triggered. *)
Lemma processSNSRecord_alarm_run slackNotifier pagerdutyNotifier w
    (record : SNSRecord) (alarm : CloudwatchAlarm) :
  let subject := SNSMessage.Subject (SNSRecord.Sns record) in
  strings_Contains subject "ALARM:" || strings_Contains subject "OK:" = true ->
  json_Unmarshal (SNSMessage.Message (SNSRecord.Sns record)) = Decoded_ok alarm ->
  processSNSRecord slackNotifier pagerdutyNotifier record w =
    match sendMessage slackNotifier (alarm_slack_message subject alarm) w with
    | (Returned None, w') =>
        if strings_Contains subject "ALARM:"
        then triggerIncident pagerdutyNotifier (alarm_incident subject alarm) w'
        else (Returned None, w')
    | (Returned (Some e), w') => (Returned (Some e), w')
    | (Panicked reason, w') => (Panicked reason, w')
    end.
Proof.
  intros subject Hsubject Halarm. unfold processSNSRecord.
  rewrite Halarm. fold subject. cbn zeta. rewrite Hsubject.
  rewrite dimension_fields_loop, incident_loop, bind_run.
  rewrite <- !app_assoc. change ([?x] ++ [?y]) with [x; y].
  fold (alarm_slack_message subject alarm).
  destruct (sendMessage slackNotifier (alarm_slack_message subject alarm) w)
    as [[[e|]|reason] w']; try reflexivity.
  destruct (strings_Contains subject "ALARM:"); [|reflexivity].
  apply return_err_run.
Qed.

(** A record with an alarm subject whose message does not decode fails
    before anything is sent or logged. *)
Lemma processSNSRecord_undecodable slackNotifier pagerdutyNotifier w
    (record : SNSRecord) (e : string) :
  let subject := SNSMessage.Subject (SNSRecord.Sns record) in
  strings_Contains subject "ALARM:" || strings_Contains subject "OK:" = true ->
  json_Unmarshal (T := CloudwatchAlarm) (SNSMessage.Message (SNSRecord.Sns record))
    = Decoded_err e ->
  processSNSRecord slackNotifier pagerdutyNotifier record w =
    (Returned (Some ("could not unmarshal Cloudwatch Alarm payload: " +:+ e)), w).
Proof.
  intros subject Hsubject Halarm. unfold processSNSRecord.
  rewrite Halarm. fold subject. cbn zeta. by rewrite Hsubject.
Qed.

(** An alarm record that decodes sends its chat message and no other. *)
Lemma processSNSRecord_alarm_slack_messages slackNotifier pagerdutyNotifier w
    (record : SNSRecord) (alarm : CloudwatchAlarm) :
  let subject := SNSMessage.Subject (SNSRecord.Sns record) in
  strings_Contains subject "ALARM:" || strings_Contains subject "OK:" = true ->
  json_Unmarshal (SNSMessage.Message (SNSRecord.Sns record)) = Decoded_ok alarm ->
  slack_messages (after (processSNSRecord slackNotifier pagerdutyNotifier record) w)
    = slack_messages w ++ [alarm_slack_message subject alarm].
Proof.
  intros subject Hsubject Halarm. unfold after.
  rewrite (processSNSRecord_alarm_run _ _ _ _ alarm) by assumption.
  fold subject.
  pose proof (sendMessage_slack_messages slackNotifier
                (alarm_slack_message subject alarm) w) as Hsent.
  unfold after in Hsent.
  destruct (sendMessage slackNotifier (alarm_slack_message subject alarm) w)
    as [[[e|]|reason] w']; try exact Hsent.
  destruct (strings_Contains subject "ALARM:"); [|exact Hsent].
  cbn [snd] in Hsent. rewrite <- Hsent.
  apply triggerIncident_slack_messages.
Qed.

(** A record without an alarm subject runs as the RDS branch, and sends
    the plain message. *)
Lemma processSNSRecord_plain_run slackNotifier pagerdutyNotifier w
    (record : SNSRecord) :
  strings_Contains (SNSMessage.Subject (SNSRecord.Sns record)) "ALARM:"
    || strings_Contains (SNSMessage.Subject (SNSRecord.Sns record)) "OK:" = false ->
  processSNSRecord slackNotifier pagerdutyNotifier record w
    = processSNSRecord_rds slackNotifier record w.
Proof.
  intros Hsubject. unfold processSNSRecord. cbn zeta. rewrite Hsubject.
  case_cond; reflexivity.
Qed.

Lemma processSNSRecord_rds_slack_messages slackNotifier w (record : SNSRecord) :
  slack_messages (after (processSNSRecord_rds slackNotifier record) w)
    = slack_messages w ++
      [ SlackMessage.mk [
          SlackAttachment.mk (SNSMessage.Message (SNSRecord.Sns record)) ColorInfo
            [ SlackField.mk (SNSMessage.Subject (SNSRecord.Sns record))
                (SNSMessage.Message (SNSRecord.Sns record)) false ] ] ].
Proof.
  unfold processSNSRecord_rds. cbn zeta.
  rewrite after_return_err. apply sendMessage_slack_messages.
Qed.

(** Every record that does not fail to decode sends exactly one chat
    message, whatever the network answers. *)
Lemma processSNSRecord_one_chat_message slackNotifier pagerdutyNotifier w
    (record : SNSRecord) :
  let subject := SNSMessage.Subject (SNSRecord.Sns record) in
  (strings_Contains subject "ALARM:" || strings_Contains subject "OK:" = true ->
   exists alarm : CloudwatchAlarm,
     json_Unmarshal (SNSMessage.Message (SNSRecord.Sns record)) = Decoded_ok alarm) ->
  exists msg,
    slack_messages (after (processSNSRecord slackNotifier pagerdutyNotifier record) w)
      = slack_messages w ++ [msg].
Proof.
  intros subject Hdecodes.
  destruct (strings_Contains subject "ALARM:" || strings_Contains subject "OK:")
    eqn:Hsubject.
  - destruct (Hdecodes eq_refl) as [alarm Halarm]. eexists.
    by apply processSNSRecord_alarm_slack_messages.
  - eexists. unfold after. rewrite processSNSRecord_plain_run by exact Hsubject.
    apply processSNSRecord_rds_slack_messages.
Qed.

(** C7. For a record whose subject matches neither alarm pattern, the
    catch-all branch and the RDS branch run alike on every record and
    world; [processSNSRecord] runs as the RDS branch whichever of the two
    it takes; and the one message it sends has a single wide field pairing
    the subject with the message text, the info color, and the message
    text as fallback. *)
Theorem C7_plain_branch_as_rds_branch slackNotifier pagerdutyNotifier w
    (record : SNSRecord) :
  strings_Contains (SNSMessage.Subject (SNSRecord.Sns record)) "ALARM:" = false ->
  strings_Contains (SNSMessage.Subject (SNSRecord.Sns record)) "OK:" = false ->
  processSNSRecord_plain slackNotifier record w
    = processSNSRecord_rds slackNotifier record w /\
  processSNSRecord slackNotifier pagerdutyNotifier record w
    = processSNSRecord_rds slackNotifier record w /\
  slack_messages (after (processSNSRecord slackNotifier pagerdutyNotifier record) w)
    = slack_messages w ++
      [ SlackMessage.mk [
          SlackAttachment.mk (SNSMessage.Message (SNSRecord.Sns record)) ColorInfo
            [ SlackField.mk (SNSMessage.Subject (SNSRecord.Sns record))
                (SNSMessage.Message (SNSRecord.Sns record)) false ] ] ].
Proof.
  intros Halarm Hok.
  assert (processSNSRecord slackNotifier pagerdutyNotifier record w
          = processSNSRecord_rds slackNotifier record w) as Hrun.
  { apply processSNSRecord_plain_run. by rewrite Halarm, Hok. }
  split; [reflexivity | split; [exact Hrun |]].
  unfold after. rewrite Hrun. apply processSNSRecord_rds_slack_messages.
Qed.

(** C5. For a record with an alarm subject whose message decodes,
    [processSNSRecord] sends exactly one chat message. Its fields are, in
    this order: a wide field pairing the subject with the state-change
    reason; one narrow field per trigger dimension, in the order of the
    dimension list, pairing its name with its value; a narrow [Namespace]
    field; a narrow [MetricName] field. Its color is error-red if the
    subject contains [ALARM:] and success-green otherwise. *)
Theorem C5_alarm_chat_message slackNotifier pagerdutyNotifier w
    (record : SNSRecord) (alarm : CloudwatchAlarm) :
  let subject := SNSMessage.Subject (SNSRecord.Sns record) in
  let trigger := CloudwatchAlarm.Trigger alarm in
  strings_Contains subject "ALARM:" || strings_Contains subject "OK:" = true ->
  json_Unmarshal (SNSMessage.Message (SNSRecord.Sns record)) = Decoded_ok alarm ->
  slack_messages (after (processSNSRecord slackNotifier pagerdutyNotifier record) w)
    = slack_messages w ++
      [ SlackMessage.mk [
          SlackAttachment.mk (CloudwatchAlarm.NewStateReason alarm)
            (if strings_Contains subject "ALARM:" then ColorError else ColorSuccess)
            ([ SlackField.mk subject (CloudwatchAlarm.NewStateReason alarm) false ] ++
             ((fun d => SlackField.mk (CloudwatchAlarmTriggerDimension.Name d)
                          (CloudwatchAlarmTriggerDimension.Value d) true)
                <$> CloudwatchAlarmTrigger.Dimensions trigger) ++
             [ SlackField.mk "Namespace" (CloudwatchAlarmTrigger.Namespace trigger) true;
               SlackField.mk "MetricName" (CloudwatchAlarmTrigger.MetricName trigger)
                 true ]) ] ].
Proof.
  intros subject trigger Hsubject Halarm.
  by apply processSNSRecord_alarm_slack_messages.
Qed.

(** C1 (as amended). For a record whose subject contains [ALARM:], whose
    message decodes, and whose chat message was delivered (the webhook
    request got a response and no error), [processSNSRecord] issues two
    requests, the chat message and then one incident: its description is subject, [-], reason; its key is
    [incident] followed by every dimension value in list order (just
    [incident] when there is no dimension); its detail fields give, for
    each name, the value of the last dimension with that name, hence each
    dimension's own value when the names are distinct. For a subject that
    contains [OK:] and not [ALARM:], no incident is sent. *)
Theorem C1_failing_alarm_incident slackNotifier pagerdutyNotifier w
    (record : SNSRecord) :
  let subject := SNSMessage.Subject (SNSRecord.Sns record) in
  (forall (alarm : CloudwatchAlarm) (res : Response),
      let dimensions :=
        CloudwatchAlarmTrigger.Dimensions (CloudwatchAlarm.Trigger alarm) in
      strings_Contains subject "ALARM:" = true ->
      json_Unmarshal (SNSMessage.Message (SNSRecord.Sns record)) = Decoded_ok alarm ->
      World.net w (length (World.posts w)) = PostResponse res ->
      exists msg req,
        World.posts (after (processSNSRecord slackNotifier pagerdutyNotifier record) w)
          = World.posts w ++ [slack_request slackNotifier msg; pagerduty_request req] /\
        incidents (after (processSNSRecord slackNotifier pagerdutyNotifier record) w)
          = incidents w ++ [req] /\
        PagerdutyIncidentRequest.Description req
          = subject +:+ "-" +:+ CloudwatchAlarm.NewStateReason alarm /\
        PagerdutyIncidentRequest.IncidentKey req
          = "incident" +:+
            concat_strings (CloudwatchAlarmTriggerDimension.Value <$> dimensions) /\
        (dimensions = [] -> PagerdutyIncidentRequest.IncidentKey req = "incident") /\
        (forall name,
            PagerdutyIncidentDetails.Fields (PagerdutyIncidentRequest.Details req)
              !! name = last_dimension_value name dimensions) /\
        (NoDup (CloudwatchAlarmTriggerDimension.Name <$> dimensions) ->
         forall d, d ∈ dimensions ->
           PagerdutyIncidentDetails.Fields (PagerdutyIncidentRequest.Details req)
             !! CloudwatchAlarmTriggerDimension.Name d
           = Some (CloudwatchAlarmTriggerDimension.Value d))) /\
  (strings_Contains subject "OK:" = true ->
   strings_Contains subject "ALARM:" = false ->
   incidents (after (processSNSRecord slackNotifier pagerdutyNotifier record) w)
     = incidents w).
Proof.
  intros subject. split.
  - intros alarm res dimensions Hfailing Halarm Hnet.
    exists (alarm_slack_message subject alarm),
           (incident_request pagerdutyNotifier (alarm_incident subject alarm)).
    assert (forall name,
               PagerdutyIncidentDetails.Fields
                 (PagerdutyIncidentRequest.Details
                    (incident_request pagerdutyNotifier (alarm_incident subject alarm)))
                 !! name = last_dimension_value name dimensions) as Hfields.
    { intros name. cbn. fold dimensions. rewrite detail_fields_lookup.
      by destruct (last_dimension_value name dimensions). }
    assert (World.posts
              (after (processSNSRecord slackNotifier pagerdutyNotifier record) w)
            = World.posts w ++
              [slack_request slackNotifier (alarm_slack_message subject alarm);
               pagerduty_request
                 (incident_request pagerdutyNotifier (alarm_incident subject alarm))])
      as Hposts.
    { unfold after.
      rewrite (processSNSRecord_alarm_run _ _ _ _ alarm);
        [|by (fold subject; rewrite Hfailing) | assumption].
      fold subject. rewrite Hfailing, sendMessage_run. cbn zeta. rewrite Hnet.
      rewrite triggerIncident_run. cbn zeta.
      fold (incident_request pagerdutyNotifier (alarm_incident subject alarm)).
      case_match; cbn; by rewrite <- app_assoc. }
    split; [exact Hposts|].
    split; [|split; [reflexivity | split; [reflexivity | split; [|split]]]].
    + by rewrite (incidents_app _ _ _ Hposts).
    + intros Hnone. cbn. fold dimensions. by rewrite Hnone.
    + exact Hfields.
    + intros Hnodup d Hd. rewrite Hfields.
      by apply last_dimension_value_NoDup.
  - intros _ Hok. by apply processSNSRecord_incidents_not_failing.
Qed.
(** *** The batch of SNS records *)

(** The loop over a list is the loop over its front part, then, if that
    part went through without an error, the loop over the rest. *)
Lemma processSNSRecords_range_app slackNotifier pagerdutyNotifier w
    (front rest : list SNSRecord) :
  processSNSRecords_range slackNotifier pagerdutyNotifier (front ++ rest) w =
    match processSNSRecords_range slackNotifier pagerdutyNotifier front w with
    | (Returned None, w') =>
        processSNSRecords_range slackNotifier pagerdutyNotifier rest w'
    | stopped => stopped
    end.
Proof.
  revert w. induction front as [|record front IH]; intros w; [reflexivity|].
  cbn [app processSNSRecords_range]. rewrite !bind_run.
  destruct (processSNSRecord slackNotifier pagerdutyNotifier record w)
    as [[[e|]|reason] w']; try reflexivity.
  apply IH.
Qed.

(** C3. [processSNSRecords] takes the records in list order: once a front
    part of the list has gone through without error, the run goes on with
    the rest from the world the front part left. The first record that
    returns an error ends the run: its error is returned, with a prefix, and
    the world is the one that record left, so that no later record is
    attempted. In a batch of three whose second record has an alarm subject
    and a message that does not decode, while the first does not fail to
    decode, the run leaves the world that the first record alone leaves, and
    has sent exactly one chat message. *)
Theorem C3_fail_fast slackNotifier pagerdutyNotifier raw w :
  (forall front rest w',
      processSNSRecords_range slackNotifier pagerdutyNotifier front w
        = (Returned None, w') ->
      processSNSRecords_range slackNotifier pagerdutyNotifier (front ++ rest) w
        = processSNSRecords_range slackNotifier pagerdutyNotifier rest w') /\
  (forall front record rest w1 w2 e,
      json_Unmarshal raw = Decoded_ok (SNSRecordList.mk (front ++ record :: rest)) ->
      processSNSRecords_range slackNotifier pagerdutyNotifier front w
        = (Returned None, w1) ->
      processSNSRecord slackNotifier pagerdutyNotifier record w1
        = (Returned (Some e), w2) ->
      processSNSRecords slackNotifier pagerdutyNotifier raw w
        = (Returned (Some ("could not process SNS record: " +:+ e)), w2)) /\
  (forall r1 r2 r3 e,
      let subject1 := SNSMessage.Subject (SNSRecord.Sns r1) in
      let subject2 := SNSMessage.Subject (SNSRecord.Sns r2) in
      json_Unmarshal raw = Decoded_ok (SNSRecordList.mk [r1; r2; r3]) ->
      (strings_Contains subject1 "ALARM:" || strings_Contains subject1 "OK:" = true ->
       exists alarm : CloudwatchAlarm,
         json_Unmarshal (SNSMessage.Message (SNSRecord.Sns r1)) = Decoded_ok alarm) ->
      strings_Contains subject2 "ALARM:" || strings_Contains subject2 "OK:" = true ->
      json_Unmarshal (T := CloudwatchAlarm) (SNSMessage.Message (SNSRecord.Sns r2))
        = Decoded_err e ->
      after (processSNSRecords slackNotifier pagerdutyNotifier raw) w
        = after (processSNSRecord slackNotifier pagerdutyNotifier r1) w /\
      exists msg,
        slack_messages (after (processSNSRecords slackNotifier pagerdutyNotifier raw) w)
          = slack_messages w ++ [msg]).
Proof.
  split; [|split].
  - intros front rest w' Hfront. by rewrite processSNSRecords_range_app, Hfront.
  - intros front record rest w1 w2 e Hraw Hfront Hrecord.
    unfold processSNSRecords. rewrite Hraw. cbn [SNSRecordList.Records].
    rewrite processSNSRecords_range_app, Hfront.
    cbn [processSNSRecords_range]. by rewrite bind_run, Hrecord.
  - intros r1 r2 r3 e subject1 subject2 Hraw Hr1 Hsubject2 Hr2.
    assert (after (processSNSRecords slackNotifier pagerdutyNotifier raw) w
            = after (processSNSRecord slackNotifier pagerdutyNotifier r1) w) as Hafter.
    { unfold after, processSNSRecords. rewrite Hraw.
      cbn [SNSRecordList.Records processSNSRecords_range]. rewrite bind_run.
      destruct (processSNSRecord slackNotifier pagerdutyNotifier r1 w)
        as [[[e1|]|reason] w1]; try reflexivity.
      rewrite bind_run.
      by rewrite (processSNSRecord_undecodable _ _ _ _ e). }
    split; [exact Hafter|]. rewrite Hafter.
    by apply processSNSRecord_one_chat_message.
Qed.
End Properties.


(** ** The requests of a run *)

Lemma sendMessage_net (n : SlackNotifier) (msg : SlackMessage) (w : World) :
  World.net (after (sendMessage n msg) w) = World.net w.
Proof.
  unfold after. rewrite sendMessage_run. cbn zeta.
  destruct (World.net w (length (World.posts w))); reflexivity.
Qed.

Lemma sendMessage_returns_nil (n : SlackNotifier) (msg : SlackMessage) (w : World) :
  outcome (sendMessage n msg) w = Returned None <-> answered w (length (World.posts w)).
Proof.
  unfold outcome, answered. rewrite sendMessage_run. cbn zeta.
  destruct (World.net w (length (World.posts w))) as [res | res e | e]; cbn.
  - split; [by exists res | reflexivity].
  - split; [discriminate | by intros [? ?]].
  - split; [discriminate | by intros [? ?]].
Qed.

Lemma triggerIncident_posts_request (p : PagerdutyNotifier)
    (incident : PagerdutyIncident) (w : World) :
  World.posts (after (triggerIncident p incident) w)
    = World.posts w ++ [pagerduty_request (incident_request p incident)].
Proof.
  unfold after. rewrite triggerIncident_run. cbn zeta.
  destruct (World.net w (length (World.posts w))); reflexivity.
Qed.

Lemma triggerIncident_net (p : PagerdutyNotifier) (incident : PagerdutyIncident)
    (w : World) :
  World.net (after (triggerIncident p incident) w) = World.net w.
Proof.
  unfold after. rewrite triggerIncident_run. cbn zeta.
  destruct (World.net w (length (World.posts w))); reflexivity.
Qed.

Lemma triggerIncident_returns_nil (p : PagerdutyNotifier)
    (incident : PagerdutyIncident) (w : World) :
  outcome (triggerIncident p incident) w = Returned None
    <-> answered w (length (World.posts w)).
Proof.
  unfold outcome, answered. rewrite triggerIncident_run. cbn zeta.
  destruct (World.net w (length (World.posts w))) as [res | res e | e]; cbn.
  - split; [by exists res | reflexivity].
  - split; [discriminate | by intros [? ?]].
  - split; [discriminate | by intros [? ?]].
Qed.

(** After [sendMessage] has returned [nil], the world is the one it leaves. *)
Lemma sendMessage_then (n : SlackNotifier) (msg : SlackMessage) (w w' : World)
    (r : Outcome error) :
  sendMessage n msg w = (r, w') ->
  World.posts w' = World.posts w ++ [slack_request n msg] /\
  World.net w' = World.net w /\
  (r = Returned None <-> answered w (length (World.posts w))).
Proof.
  intros Hrun.
  pose proof (sendMessage_posts n msg w) as Hposts.
  pose proof (sendMessage_net n msg w) as Hnet.
  pose proof (sendMessage_returns_nil n msg w) as Hnil.
  unfold after, outcome in *. rewrite Hrun in *. done.
Qed.


Lemma all_answered_app (w w' : World) (rs rs' : list Request) :
  World.posts w' = World.posts w ++ rs ->
  World.net w' = World.net w ->
  all_answered w rs ->
  all_answered w' rs' ->
  all_answered w (rs ++ rs').
Proof.
  intros Hposts Hnet Hrs Hrs' i Hi. rewrite length_app in Hi.
  destruct (decide (i < length rs)) as [Hlt | Hge]; [by apply Hrs|].
  destruct (Hrs' (i - length rs)) as [res Hres]; [lia|].
  exists res. rewrite Hnet, Hposts, length_app in Hres.
  by replace (length (World.posts w) + i)
    with (length (World.posts w) + length rs + (i - length rs)) by lia.
Qed.

Lemma answered_but_last_app (w w' : World) (rs rs' : list Request) :
  World.posts w' = World.posts w ++ rs ->
  World.net w' = World.net w ->
  all_answered w rs ->
  answered_but_last w' rs' ->
  answered_but_last w (rs ++ rs').
Proof.
  intros Hposts Hnet Hrs Hrs' i Hi. rewrite length_app in Hi.
  destruct (decide (i < length rs)) as [Hlt | Hge]; [by apply Hrs|].
  destruct (Hrs' (i - length rs)) as [res Hres]; [lia|].
  exists res. rewrite Hnet, Hposts, length_app in Hres.
  by replace (length (World.posts w) + i)
    with (length (World.posts w) + length rs + (i - length rs)) by lia.
Qed.

Lemma sink_request_slack (n : SlackNotifier) (serviceKey : string) (msg : SlackMessage) :
  sink_request (SlackNotifier.webhook n) serviceKey (slack_request n msg).
Proof. by split. Qed.

Lemma sink_request_pagerduty (webhook : string) (p : PagerdutyNotifier)
    (incident : PagerdutyIncident) :
  sink_request webhook (PagerdutyNotifier.serviceKey p)
    (pagerduty_request (incident_request p incident)).
Proof. by repeat split. Qed.

(** ** The helper and the senders *)

(** X1. [contains] of main.go decides membership in the list: it is [true]
    exactly for the elements of the list and [false] exactly for the
    others, the empty list included. *)
Theorem X1_contains_membership (s : list string) (el : string) :
  (contains s el = true <-> el ∈ s) /\
  (contains s el = false <-> el ∉ s) /\
  contains [] el = false.
Proof.
  split; [apply contains_spec|]. split; [|reflexivity].
  rewrite <- contains_spec. destruct (contains s el).
  - split; [discriminate | intros Hnot; by destruct Hnot].
  - split; [intros _; discriminate | reflexivity].
Qed.

(** X2. [sendMessage] issues exactly one request whatever the network
    answers: a JSON POST of the message to the notifier's webhook. It
    returns [nil] exactly when the request came back with a response and no
    error, whatever the status of that response; it returns an error exactly
    when a response came back together with an error, and the text is that
    error's with the prefix of the sender. *)
Theorem X2_sendMessage_behaviour (n : SlackNotifier) (msg : SlackMessage) (w : World) :
  World.posts (after (sendMessage n msg) w)
    = World.posts w ++
      [Request.mk (SlackNotifier.webhook n) "application/json" (SlackPayload msg)] /\
  (outcome (sendMessage n msg) w = Returned None <->
   exists res, World.net w (length (World.posts w)) = PostResponse res) /\
  (forall e,
      outcome (sendMessage n msg) w = Returned (Some e) <->
      exists res err,
        World.net w (length (World.posts w)) = PostRedirectError res err /\
        e = "Failed to send Slack message - got error: " +:+ err).
Proof.
  split; [apply sendMessage_posts|]. split; [apply sendMessage_returns_nil|].
  intros e. unfold outcome. rewrite sendMessage_run. cbn zeta.
  destruct (World.net w (length (World.posts w))) as [res | res err | err]; cbn.
  - split; [discriminate | by intros (? & ? & ? & _)].
  - split.
    + intros [= <-]. by exists res, err.
    + intros (? & ? & [= <- <-] & ->). reflexivity.
  - split; [discriminate | by intros (? & ? & ? & _)].
Qed.

(** X3. [triggerIncident] issues exactly one request whatever the network
    answers: a JSON POST to the Pagerduty endpoint of a [trigger] event that
    carries the notifier's service key, the client name, and the incident's
    description, key and details unchanged. It returns [nil] exactly when
    the request came back with a response and no error, and an error, with
    the prefix of the sender, exactly when a response came back together
    with an error. *)
Theorem X3_triggerIncident_behaviour (p : PagerdutyNotifier)
    (incident : PagerdutyIncident) (w : World) :
  World.posts (after (triggerIncident p incident) w)
    = World.posts w ++
      [Request.mk "https://events.pagerduty.com/generic/2010-04-15/create_event.json"
         "application/json"
         (PagerdutyPayload
            (PagerdutyIncidentRequest.mk (PagerdutyNotifier.serviceKey p) "trigger"
               (PagerdutyIncident.Description incident)
               (PagerdutyIncident.IncidentKey incident)
               "AWS Event Processor"
               (PagerdutyIncident.Details incident)))] /\
  (outcome (triggerIncident p incident) w = Returned None <->
   exists res, World.net w (length (World.posts w)) = PostResponse res) /\
  (forall e,
      outcome (triggerIncident p incident) w = Returned (Some e) <->
      exists res err,
        World.net w (length (World.posts w)) = PostRedirectError res err /\
        e = "failed to trigger Pagerduty Incident - got error: " +:+ err).
Proof.
  split; [apply triggerIncident_posts_request|].
  split; [apply triggerIncident_returns_nil|].
  intros e. unfold outcome. rewrite triggerIncident_run. cbn zeta.
  destruct (World.net w (length (World.posts w))) as [res | res err | err]; cbn.
  - split; [discriminate | by intros (? & ? & ? & _)].
  - split.
    + intros [= <-]. by exists res, err.
    + intros (? & ? & [= <- <-] & ->). reflexivity.
  - split; [discriminate | by intros (? & ? & ? & _)].
Qed.
Section Traces.
Context {UnmarshalGenericEvent : Unmarshal GenericEvent}
        {UnmarshalSNSRecordList : Unmarshal SNSRecordList}
        {UnmarshalCloudwatchAlarm : Unmarshal CloudwatchAlarm}
        {UnmarshalCloudwatchEvent : Unmarshal CloudwatchEvent}
        {UnmarshalDetailEC2StateChange : Unmarshal DetailEC2StateChange}.

Implicit Types (slackNotifier : SlackNotifier) (pagerdutyNotifier : PagerdutyNotifier).
Implicit Types (raw : RawMessage) (w : World).

(** What one record makes of the world: nothing, with an error; or one chat
    message; or, for a failing alarm whose chat message was answered, the
    chat message and then the incident. *)
Lemma processSNSRecord_trace slackNotifier pagerdutyNotifier w (record : SNSRecord) :
  World.net (after (processSNSRecord slackNotifier pagerdutyNotifier record) w)
    = World.net w /\
  ((World.posts (after (processSNSRecord slackNotifier pagerdutyNotifier record) w)
      = World.posts w /\
    exists e,
      outcome (processSNSRecord slackNotifier pagerdutyNotifier record) w
        = Returned (Some e)) \/
   (exists msg,
      World.posts (after (processSNSRecord slackNotifier pagerdutyNotifier record) w)
        = World.posts w ++ [slack_request slackNotifier msg] /\
      (outcome (processSNSRecord slackNotifier pagerdutyNotifier record) w
         = Returned None ->
       answered w (length (World.posts w)))) \/
   (exists msg incident,
      World.posts (after (processSNSRecord slackNotifier pagerdutyNotifier record) w)
        = World.posts w ++
          [slack_request slackNotifier msg;
           pagerduty_request (incident_request pagerdutyNotifier incident)] /\
      strings_Contains (SNSMessage.Subject (SNSRecord.Sns record)) "ALARM:" = true /\
      answered w (length (World.posts w)) /\
      (outcome (processSNSRecord slackNotifier pagerdutyNotifier record) w
         = Returned None ->
       answered w (S (length (World.posts w)))))).
Proof.
  set (subject := SNSMessage.Subject (SNSRecord.Sns record)).
  destruct (strings_Contains subject "ALARM:" || strings_Contains subject "OK:")
    eqn:Hsubject.
  - destruct (json_Unmarshal (T := CloudwatchAlarm)
                (SNSMessage.Message (SNSRecord.Sns record)))
      as [alarm | e] eqn:Halarm.
    + unfold after, outcome.
      rewrite (processSNSRecord_alarm_run _ _ _ _ alarm) by assumption.
      fold subject.
      destruct (sendMessage slackNotifier (alarm_slack_message subject alarm) w)
        as [r w'] eqn:Hsend.
      destruct (sendMessage_then _ _ _ _ _ Hsend) as (Hposts & Hnet & Hnil).
      destruct r as [[e|]|reason].
      * split; [exact Hnet|]. right. left. eexists. split; [exact Hposts|].
        discriminate.
      * destruct (strings_Contains subject "ALARM:") eqn:Hfailing.
        -- pose proof (triggerIncident_posts_request pagerdutyNotifier
                         (alarm_incident subject alarm) w') as Hposts'.
           pose proof (triggerIncident_net pagerdutyNotifier
                         (alarm_incident subject alarm) w') as Hnet'.
           pose proof (triggerIncident_returns_nil pagerdutyNotifier
                         (alarm_incident subject alarm) w') as Hnil'.
           unfold after, outcome in Hposts', Hnet', Hnil'.
           destruct (triggerIncident pagerdutyNotifier
                       (alarm_incident subject alarm) w') as [r'' w''].
           cbn [fst snd] in *.
           split; [congruence|]. right. right. eexists. eexists.
           split; [by rewrite Hposts', Hposts, <- app_assoc|].
           split; [reflexivity|]. split; [by apply Hnil|].
           intros Hr. apply Hnil' in Hr. unfold answered in *.
           rewrite Hnet, Hposts, length_app in Hr. cbn in Hr.
           by replace (S (length (World.posts w)))
             with (length (World.posts w) + 1) by lia.
        -- split; [exact Hnet|]. right. left. eexists. split; [exact Hposts|].
           intros _. by apply Hnil.
      * split; [exact Hnet|]. right. left. eexists. split; [exact Hposts|].
        discriminate.
    + unfold after, outcome.
      rewrite (processSNSRecord_undecodable _ _ _ _ e) by assumption.
      split; [reflexivity|]. left. split; [reflexivity|]. by eexists.
  - unfold after, outcome.
    rewrite processSNSRecord_plain_run by exact Hsubject.
    unfold processSNSRecord_rds. cbn zeta. rewrite return_err_run.
    match goal with
    | |- context [sendMessage ?n ?m w] =>
        destruct (sendMessage n m w) as [r w'] eqn:Hsend;
        destruct (sendMessage_then _ _ _ _ _ Hsend) as (Hposts & Hnet & Hnil)
    end.
    split; [exact Hnet|]. right. left. eexists. split; [exact Hposts|].
    cbn [fst]. intros Hr. by apply Hnil.
Qed.

(** The requests of one record, as far as the batch needs them. *)
Lemma processSNSRecord_requests slackNotifier pagerdutyNotifier w (record : SNSRecord) :
  exists rs,
    World.posts (after (processSNSRecord slackNotifier pagerdutyNotifier record) w)
      = World.posts w ++ rs /\
    World.net (after (processSNSRecord slackNotifier pagerdutyNotifier record) w)
      = World.net w /\
    Forall (sink_request (SlackNotifier.webhook slackNotifier)
              (PagerdutyNotifier.serviceKey pagerdutyNotifier)) rs /\
    answered_but_last w rs /\
    length (omap slack_message_of rs) <= 1 /\
    (outcome (processSNSRecord slackNotifier pagerdutyNotifier record) w = Returned None ->
     all_answered w rs /\ length (omap slack_message_of rs) = 1).
Proof.
  destruct (processSNSRecord_trace slackNotifier pagerdutyNotifier w record)
    as (Hnet & [(Hposts & e & Hout) | [(msg & Hposts & Hnil)
                                      | (msg & incident & Hposts & _ & H0 & Hnil)]]).
  - exists []. rewrite app_nil_r.
    split; [exact Hposts|]. split; [exact Hnet|]. split; [constructor|].
    split; [intros i Hi; cbn in Hi; lia|]. split; [cbn; lia|].
    intros Hnone. rewrite Hout in Hnone. discriminate.
  - exists [slack_request slackNotifier msg].
    split; [exact Hposts|]. split; [exact Hnet|].
    split; [constructor; [apply sink_request_slack | constructor]|].
    split; [intros i Hi; cbn in Hi; lia|]. split; [cbn; lia|].
    intros Hnone. split; [|reflexivity].
    intros i Hi. cbn in Hi. replace i with 0 by lia.
    rewrite Nat.add_0_r. by apply Hnil.
  - exists [slack_request slackNotifier msg;
            pagerduty_request (incident_request pagerdutyNotifier incident)].
    split; [exact Hposts|]. split; [exact Hnet|].
    split; [constructor; [apply sink_request_slack|];
            constructor; [apply sink_request_pagerduty | constructor]|].
    split.
    { intros i Hi. cbn in Hi. replace i with 0 by lia. by rewrite Nat.add_0_r. }
    split; [cbn; lia|].
    intros Hnone. split; [|reflexivity].
    intros i Hi. cbn in Hi.
    destruct i as [|[|i]]; [by rewrite Nat.add_0_r | | lia].
    rewrite Nat.add_1_r. by apply Hnil.
Qed.

(** The requests of a batch: every request but the last was answered; a
    batch that returns [nil] had all of them answered and has sent one chat
    message per record. *)
Lemma processSNSRecords_range_requests slackNotifier pagerdutyNotifier
    (records : list SNSRecord) w :
  exists rs,
    World.posts (after (processSNSRecords_range slackNotifier pagerdutyNotifier records) w)
      = World.posts w ++ rs /\
    World.net (after (processSNSRecords_range slackNotifier pagerdutyNotifier records) w)
      = World.net w /\
    Forall (sink_request (SlackNotifier.webhook slackNotifier)
              (PagerdutyNotifier.serviceKey pagerdutyNotifier)) rs /\
    answered_but_last w rs /\
    length (omap slack_message_of rs) <= length records /\
    (outcome (processSNSRecords_range slackNotifier pagerdutyNotifier records) w
       = Returned None ->
     all_answered w rs /\ length (omap slack_message_of rs) = length records).
Proof.
  revert w. induction records as [|record records IH]; intros w.
  - exists []. rewrite app_nil_r.
    split; [reflexivity|]. split; [reflexivity|]. split; [constructor|].
    split; [intros i Hi; cbn in Hi; lia|]. split; [cbn; lia|].
    intros _. split; [|reflexivity]. intros i Hi. cbn in Hi. lia.
  - destruct (processSNSRecord_requests slackNotifier pagerdutyNotifier w record)
      as (rs & Hposts & Hnet & Hsink & Hlast & Hcount & Hnil).
    unfold after, outcome in *. cbn [processSNSRecords_range]. rewrite bind_run.
    destruct (processSNSRecord slackNotifier pagerdutyNotifier record w)
      as [[[e|]|reason] w1]; cbn [fst snd] in *.
    + exists rs. split; [exact Hposts|]. split; [exact Hnet|]. split; [exact Hsink|].
      split; [exact Hlast|]. split; [cbn; lia | discriminate].
    + destruct (Hnil eq_refl) as [Hall Hone].
      destruct (IH w1) as (rs' & Hposts' & Hnet' & Hsink' & Hlast' & Hcount' & Hnil').
      exists (rs ++ rs'). split; [by rewrite Hposts', Hposts, <- app_assoc|].
      split; [congruence|]. split; [by apply Forall_app|].
      split; [by apply (answered_but_last_app w w1)|].
      rewrite omap_app, length_app. split; [cbn; lia|].
      intros Hout. destruct (Hnil' Hout) as [Hall' Hcount''].
      split; [by apply (all_answered_app w w1) | cbn; lia].
    + exists rs. split; [exact Hposts|]. split; [exact Hnet|]. split; [exact Hsink|].
      split; [exact Hlast|]. split; [cbn; lia | discriminate].
Qed.

(** The requests of one Cloudwatch event: none, or one chat message. *)
Lemma processCloudwatchEvent_requests slackNotifier pagerdutyNotifier raw w :
  World.net (after (processCloudwatchEvent slackNotifier pagerdutyNotifier raw) w)
    = World.net w /\
  (World.posts (after (processCloudwatchEvent slackNotifier pagerdutyNotifier raw) w)
     = World.posts w \/
   exists msg,
     World.posts (after (processCloudwatchEvent slackNotifier pagerdutyNotifier raw) w)
       = World.posts w ++ [slack_request slackNotifier msg]).
Proof.
  unfold processCloudwatchEvent.
  destruct (json_Unmarshal raw) as [event | e]; [|by split; [|left]].
  destruct (String.eqb (CloudwatchEvent.Source event) "aws.ec2").
  { case_cond; [|by split; [|left]].
    rewrite after_wrap_err. unfold processEC2StateChangeEvent.
    destruct (json_Unmarshal (CloudwatchEvent.Detail event)); [|by split; [|left]].
    cbn zeta. rewrite after_return_err.
    split; [apply sendMessage_net | right; eexists; apply sendMessage_posts]. }
  destruct (String.eqb (CloudwatchEvent.Source event) "aws.events");
    [by split; [|left]|].
  destruct (String.eqb (CloudwatchEvent.Source event) "aws.autoscaling").
  { rewrite after_wrap_err. unfold processAutoscalingEvent.
    case_cond; cbn zeta; rewrite after_return_err;
      (split; [apply sendMessage_net | right; eexists; apply sendMessage_posts]). }
  cbn zeta. rewrite after_return_err.
  split; [apply sendMessage_net | right; eexists; apply sendMessage_posts].
Qed.

(** How [processSNSRecords] runs: the list does not decode, or the loop runs
    over the decoded records. *)
Lemma processSNSRecords_cases slackNotifier pagerdutyNotifier raw w :
  (exists e,
      json_Unmarshal (T := SNSRecordList) raw = Decoded_err e /\
      processSNSRecords slackNotifier pagerdutyNotifier raw w
        = (Returned (Some ("could not unmarshal SNS record list: " +:+ e)), w)) \/
  (exists recordList,
      json_Unmarshal raw = Decoded_ok recordList /\
      processSNSRecords slackNotifier pagerdutyNotifier raw w
        = processSNSRecords_range slackNotifier pagerdutyNotifier
            (SNSRecordList.Records recordList) w).
Proof.
  unfold processSNSRecords.
  destruct (json_Unmarshal (T := SNSRecordList) raw) as [recordList | e].
  - right. by exists recordList.
  - left. by exists e.
Qed.

(** How [processMessage] runs: the envelope does not decode; or it names an
    SNS batch; or it has records of another kind; or it has no record. *)
Lemma processMessage_cases slackNotifier pagerdutyNotifier raw w :
  (exists e,
      json_Unmarshal (T := GenericEvent) raw = Decoded_err e /\
      processMessage slackNotifier pagerdutyNotifier raw w
        = (Returned (Some ("unsupported payload: " +:+ e)), w)) \/
  (exists data first rest,
      json_Unmarshal raw = Decoded_ok data /\
      GenericEvent.Records data = Some (first :: rest) /\
      first !! "EventSource" = Some (VString "aws:sns") /\
      processMessage slackNotifier pagerdutyNotifier raw w
        = processSNSRecords slackNotifier pagerdutyNotifier raw w) \/
  (exists data first rest,
      json_Unmarshal raw = Decoded_ok data /\
      GenericEvent.Records data = Some (first :: rest) /\
      first !! "EventSource" <> Some (VString "aws:sns") /\
      processMessage slackNotifier pagerdutyNotifier raw w
        = (Returned None, logged "No SNS records to process" w)) \/
  (exists data,
      json_Unmarshal raw = Decoded_ok data /\
      (GenericEvent.Records data = None \/ GenericEvent.Records data = Some []) /\
      processMessage slackNotifier pagerdutyNotifier raw w
        = processCloudwatchEvent slackNotifier pagerdutyNotifier raw w).
Proof.
  unfold processMessage.
  destruct (json_Unmarshal (T := GenericEvent) raw) as [data | e];
    [|left; by exists e].
  right. destruct (GenericEvent.Records data) as [[|first rest]|] eqn:Hrecords.
  - right. right. exists data. rewrite return_err_run.
    split; [reflexivity|]. split; [right; exact Hrecords | reflexivity].
  - destruct (interface_eq_string (first !! "EventSource") "aws:sns") eqn:Hsource.
    + left. exists data, first, rest. rewrite return_err_run.
      split; [reflexivity|]. split; [exact Hrecords|]. split; [|reflexivity].
      unfold interface_eq_string in Hsource.
      destruct (first !! "EventSource") as [[]|]; try discriminate.
      apply String.eqb_eq in Hsource. by subst.
    + right. left. exists data, first, rest.
      split; [reflexivity|]. split; [exact Hrecords|]. split; [|reflexivity].
      intros Heq. rewrite Heq in Hsource. unfold interface_eq_string in Hsource.
      by rewrite String.eqb_refl in Hsource.
  - right. right. exists data. rewrite return_err_run.
    split; [reflexivity|]. split; [left; exact Hrecords | reflexivity].
Qed.

(** The requests of a whole run of [processMessage]. *)
Lemma processMessage_requests slackNotifier pagerdutyNotifier raw w :
  exists rs,
    World.posts (after (processMessage slackNotifier pagerdutyNotifier raw) w)
      = World.posts w ++ rs /\
    World.net (after (processMessage slackNotifier pagerdutyNotifier raw) w)
      = World.net w /\
    Forall (sink_request (SlackNotifier.webhook slackNotifier)
              (PagerdutyNotifier.serviceKey pagerdutyNotifier)) rs /\
    answered_but_last w rs.
Proof.
  unfold after.
  destruct (processMessage_cases slackNotifier pagerdutyNotifier raw w)
    as [(e & _ & ->) | [(data & first & rest & _ & _ & _ & ->)
                       | [(data & first & rest & _ & _ & _ & ->)
                         | (data & _ & _ & ->)]]].
  - exists []. rewrite app_nil_r. split; [reflexivity|]. split; [reflexivity|].
    split; [constructor|]. intros i Hi. cbn in Hi. lia.
  - destruct (processSNSRecords_cases slackNotifier pagerdutyNotifier raw w)
      as [(e & _ & ->) | (recordList & _ & ->)].
    + exists []. rewrite app_nil_r. split; [reflexivity|]. split; [reflexivity|].
      split; [constructor|]. intros i Hi. cbn in Hi. lia.
    + destruct (processSNSRecords_range_requests slackNotifier pagerdutyNotifier
                  (SNSRecordList.Records recordList) w)
        as (rs & Hposts & Hnet & Hsink & Hlast & _).
      by exists rs.
  - exists []. rewrite app_nil_r. split; [reflexivity|]. split; [reflexivity|].
    split; [constructor|]. intros i Hi. cbn in Hi. lia.
  - destruct (processCloudwatchEvent_requests slackNotifier pagerdutyNotifier raw w)
      as [Hnet [Hposts | [msg Hposts]]].
    + exists []. rewrite app_nil_r. split; [exact Hposts|]. split; [exact Hnet|].
      split; [constructor|]. intros i Hi. cbn in Hi. lia.
    + exists [slack_request slackNotifier msg].
      split; [exact Hposts|]. split; [exact Hnet|].
      split; [constructor; [apply sink_request_slack | constructor]|].
      intros i Hi. cbn in Hi. lia.
Qed.

(** *** The entry point *)

(** How [HandleRequest] runs once both settings are present. *)
Lemma HandleRequest_configured (env : gmap string string) raw w (hook key : string) :
  env !! "slack_webhook" = Some hook ->
  env !! "pagerduty_key" = Some key ->
  HandleRequest env raw w
    = processMessage (SlackNotifier.mk hook) (PagerdutyNotifier.mk key) raw
        (logged "Receiving new Event(s)" w).
Proof.
  intros Hhook Hkey. unfold HandleRequest. rewrite bind_run. cbn [log_Print].
  by rewrite Hhook, Hkey.
Qed.

(** X4. Without [slack_webhook] in the environment, [HandleRequest] returns
    an error that names it (as [slack_webhook_enc]); with it and without
    [pagerduty_key], an error that names that one. In both cases the payload
    is not looked at and nothing is sent: the world only gains the first log
    line. *)
Theorem X4_HandleRequest_missing_setting (env : gmap string string) raw w :
  (env !! "slack_webhook" = None ->
   HandleRequest env raw w
     = (Returned (Some "could not read slack_webhook_enc from environment"),
        logged "Receiving new Event(s)" w)) /\
  (forall hook,
      env !! "slack_webhook" = Some hook ->
      env !! "pagerduty_key" = None ->
      HandleRequest env raw w
        = (Returned (Some "could not read pagerduty_key from environment"),
           logged "Receiving new Event(s)" w)).
Proof.
  split.
  - intros Hhook. unfold HandleRequest. rewrite bind_run. cbn [log_Print].
    by rewrite Hhook.
  - intros hook Hhook Hkey. unfold HandleRequest. rewrite bind_run. cbn [log_Print].
    by rewrite Hhook, Hkey.
Qed.

(** X5. With both settings present, every request that [HandleRequest]
    issues, on any payload and whatever the network answers, is a JSON POST
    that is either a chat message to the configured webhook or a [trigger]
    event to the Pagerduty endpoint with the configured service key; the
    requests issued before the run are left as they were. *)
Theorem X5_HandleRequest_requests_go_to_the_sinks (env : gmap string string) raw w
    (hook key : string) :
  env !! "slack_webhook" = Some hook ->
  env !! "pagerduty_key" = Some key ->
  exists rs,
    World.posts (after (HandleRequest env raw) w) = World.posts w ++ rs /\
    Forall (sink_request hook key) rs.
Proof.
  intros Hhook Hkey. unfold after.
  rewrite (HandleRequest_configured env raw w hook key) by assumption.
  destruct (processMessage_requests (SlackNotifier.mk hook) (PagerdutyNotifier.mk key)
              raw (logged "Receiving new Event(s)" w))
    as (rs & Hposts & _ & Hsink & _).
  by exists rs.
Qed.

(** X6. A run stops at the first request that is not answered: of the
    requests that [HandleRequest] issues, every one but the last came back
    with a response and no error. *)
Theorem X6_HandleRequest_stops_at_unanswered_request (env : gmap string string) raw w :
  exists rs,
    World.posts (after (HandleRequest env raw) w) = World.posts w ++ rs /\
    forall i, S i < length rs ->
      exists res, World.net w (length (World.posts w) + i) = PostResponse res.
Proof.
  destruct (env !! "slack_webhook") as [hook|] eqn:Hhook.
  - destruct (env !! "pagerduty_key") as [key|] eqn:Hkey.
    + unfold after.
      rewrite (HandleRequest_configured env raw w hook key) by assumption.
      destruct (processMessage_requests (SlackNotifier.mk hook)
                  (PagerdutyNotifier.mk key) raw (logged "Receiving new Event(s)" w))
        as (rs & Hposts & _ & _ & Hlast).
      exists rs. split; [exact Hposts | exact Hlast].
    + exists []. unfold after, HandleRequest. rewrite bind_run. cbn [log_Print].
      rewrite Hhook, Hkey.
      split; [by rewrite app_nil_r | intros i Hi; cbn in Hi; lia].
  - exists []. unfold after, HandleRequest. rewrite bind_run. cbn [log_Print].
    rewrite Hhook.
    split; [by rewrite app_nil_r | intros i Hi; cbn in Hi; lia].
Qed.

(** *** One record, one event, one batch *)

(** X7. One SNS record gives at most one chat message and at most one
    incident, in that order: [processSNSRecord] issues no request, or one
    chat message, or one chat message followed by one incident; and an
    incident is only issued after the chat message came back with a
    response and no error. *)
Theorem X7_record_sends_at_most_one_of_each slackNotifier pagerdutyNotifier w
    (record : SNSRecord) :
  exists rs,
    World.posts (after (processSNSRecord slackNotifier pagerdutyNotifier record) w)
      = World.posts w ++ rs /\
    (rs = [] \/
     (exists msg, rs = [slack_request slackNotifier msg]) \/
     (exists msg req,
         rs = [slack_request slackNotifier msg; pagerduty_request req] /\
         exists res, World.net w (length (World.posts w)) = PostResponse res)).
Proof.
  destruct (processSNSRecord_trace slackNotifier pagerdutyNotifier w record)
    as (_ & [(Hposts & _) | [(msg & Hposts & _)
                            | (msg & incident & Hposts & _ & Hanswered & _)]]).
  - exists []. split; [by rewrite app_nil_r | by left].
  - eexists. split; [exact Hposts|]. right. left. by exists msg.
  - eexists. split; [exact Hposts|]. right. right. by eexists _, _.
Qed.

(** X8. One Cloudwatch event gives at most one request, and that request is
    a chat message: whatever the payload and whatever the network answers,
    [processCloudwatchEvent] leaves the requests as they were or adds one
    chat message to the webhook. *)
Theorem X8_event_sends_at_most_one_chat_message slackNotifier pagerdutyNotifier raw w :
  World.posts (after (processCloudwatchEvent slackNotifier pagerdutyNotifier raw) w)
    = World.posts w \/
  exists msg,
    World.posts (after (processCloudwatchEvent slackNotifier pagerdutyNotifier raw) w)
      = World.posts w ++
        [Request.mk (SlackNotifier.webhook slackNotifier) "application/json"
           (SlackPayload msg)].
Proof.
  exact (proj2 (processCloudwatchEvent_requests slackNotifier pagerdutyNotifier raw w)).
Qed.

(** X9. A batch never sends more chat messages than it has records; and
    when [processSNSRecords] returns [nil], it has sent exactly one chat
    message per record, and every request it issued came back with a
    response and no error. *)
Theorem X9_batch_chat_messages slackNotifier pagerdutyNotifier raw w
    (recordList : SNSRecordList) :
  json_Unmarshal raw = Decoded_ok recordList ->
  length (slack_messages (after (processSNSRecords slackNotifier pagerdutyNotifier raw) w))
    <= length (slack_messages w) + length (SNSRecordList.Records recordList) /\
  (outcome (processSNSRecords slackNotifier pagerdutyNotifier raw) w = Returned None ->
   length (slack_messages
             (after (processSNSRecords slackNotifier pagerdutyNotifier raw) w))
     = length (slack_messages w) + length (SNSRecordList.Records recordList) /\
   exists rs,
     World.posts (after (processSNSRecords slackNotifier pagerdutyNotifier raw) w)
       = World.posts w ++ rs /\
     forall i, i < length rs ->
       exists res, World.net w (length (World.posts w) + i) = PostResponse res).
Proof.
  intros Hraw. unfold after, outcome, processSNSRecords. rewrite Hraw.
  destruct (processSNSRecords_range_requests slackNotifier pagerdutyNotifier
              (SNSRecordList.Records recordList) w)
    as (rs & Hposts & _ & _ & _ & Hcount & Hnil).
  unfold after, outcome in *.
  rewrite (slack_messages_app w rs _ Hposts), length_app.
  split; [lia|]. intros Hout. destruct (Hnil Hout) as [Hall Hcount'].
  split; [lia|]. by exists rs.
Qed.

(** *** The Cloudwatch event processor, case by case *)

(** X10. A payload that does not decode as a Cloudwatch event, and an EC2
    state-change event whose detail does not decode, both end in an error
    before anything is sent or logged; the error of the detail is prefixed
    by the EC2 handler and then by the event processor. *)
Theorem X10_event_decode_failures slackNotifier pagerdutyNotifier raw w (e : string) :
  (json_Unmarshal (T := CloudwatchEvent) raw = Decoded_err e ->
   processCloudwatchEvent slackNotifier pagerdutyNotifier raw w
     = (Returned (Some ("unsupported Cloudwatch Event payload: " +:+ e)), w)) /\
  (forall event : CloudwatchEvent,
      json_Unmarshal raw = Decoded_ok event ->
      CloudwatchEvent.Source event = "aws.ec2" ->
      CloudwatchEvent.DetailType event = "EC2 Instance State-change Notification" ->
      json_Unmarshal (T := DetailEC2StateChange) (CloudwatchEvent.Detail event)
        = Decoded_err e ->
      processCloudwatchEvent slackNotifier pagerdutyNotifier raw w
        = (Returned
             (Some ("failed to process EC2 Event: " +:+
                    "unsupported EC2 Cloudwatch Event Detail: " +:+ e)), w)).
Proof.
  split.
  - intros Hraw. unfold processCloudwatchEvent. by rewrite Hraw.
  - intros event Hraw Hsource Htype Hdetail. unfold processCloudwatchEvent.
    rewrite Hraw, Hsource, Htype, !String.eqb_refl, bind_run.
    unfold processEC2StateChangeEvent. by rewrite Hdetail.
Qed.

(** X11. A scheduled event (source [aws.events]) is ignored whatever its
    detail-type and detail: [processCloudwatchEvent] returns [nil] and
    leaves the requests and the log as they were. *)
Theorem X11_scheduled_events_ignored slackNotifier pagerdutyNotifier raw w
    (event : CloudwatchEvent) :
  json_Unmarshal raw = Decoded_ok event ->
  CloudwatchEvent.Source event = "aws.events" ->
  processCloudwatchEvent slackNotifier pagerdutyNotifier raw w = (Returned None, w).
Proof.
  intros Hraw Hsource. unfold processCloudwatchEvent. by rewrite Hraw, Hsource.
Qed.

(** X12. An event of any source other than [aws.ec2], [aws.events] and
    [aws.autoscaling] runs as [sendMessage] on one info-colored message
    whose fallback is the source and whose two wide fields give the source
    and the text of the detail as it came; the result of the sender is
    handed on without a prefix. *)
Theorem X12_other_sources_generic_message slackNotifier pagerdutyNotifier raw w
    (event : CloudwatchEvent) :
  json_Unmarshal raw = Decoded_ok event ->
  CloudwatchEvent.Source event <> "aws.ec2" ->
  CloudwatchEvent.Source event <> "aws.events" ->
  CloudwatchEvent.Source event <> "aws.autoscaling" ->
  processCloudwatchEvent slackNotifier pagerdutyNotifier raw w
    = sendMessage slackNotifier
        (SlackMessage.mk [
           SlackAttachment.mk (CloudwatchEvent.Source event) ColorInfo
             [ SlackField.mk "CloudWatch Event" (CloudwatchEvent.Source event) false;
               SlackField.mk "Event Detail JSON" (CloudwatchEvent.Detail event) false ] ])
        w.
Proof.
  intros Hraw Hec2 Hevents Hautoscaling. unfold processCloudwatchEvent. rewrite Hraw.
  apply String.eqb_neq in Hec2, Hevents, Hautoscaling.
  rewrite Hec2, Hevents, Hautoscaling. cbn zeta. apply return_err_run.
Qed.

(** X13. Every autoscaling event sends one chat message with one
    attachment. Its fallback and the value of its first, wide field are the
    title: [Autoscaling - Lifecycle Action] for the two lifecycle
    detail-types, [Autoscaling - ] followed by the detail-type otherwise.
    Its color is warn-yellow exactly for the detail-types [EC2 Instance
    Launch Unsuccessful] and [EC2 Instance Terminate Unsuccessful], and
    info-blue for every other one. *)
Theorem X13_autoscaling_title_and_color slackNotifier pagerdutyNotifier w
    (event : CloudwatchEvent) :
  let title :=
    if contains ["EC2 Instance-launch Lifecycle Action";
                 "EC2 Instance-terminate Lifecycle Action"]
                (CloudwatchEvent.DetailType event)
    then "Autoscaling - Lifecycle Action"
    else "Autoscaling - " +:+ CloudwatchEvent.DetailType event in
  exists attachment,
    slack_messages
      (after (processAutoscalingEvent slackNotifier pagerdutyNotifier event) w)
      = slack_messages w ++ [SlackMessage.mk [attachment]] /\
    SlackAttachment.Fallback attachment = title /\
    head (SlackAttachment.Fields attachment)
      = Some (SlackField.mk "CloudWatch Event" title false) /\
    (SlackAttachment.Color attachment = ColorWarn <->
     CloudwatchEvent.DetailType event
       ∈ ["EC2 Instance Launch Unsuccessful"; "EC2 Instance Terminate Unsuccessful"]) /\
    (SlackAttachment.Color attachment = ColorInfo <->
     CloudwatchEvent.DetailType event
       ∉ ["EC2 Instance Launch Unsuccessful"; "EC2 Instance Terminate Unsuccessful"]).
Proof.
  intros title. subst title. unfold processAutoscalingEvent.
  destruct (contains ["EC2 Instance-launch Lifecycle Action";
                      "EC2 Instance-terminate Lifecycle Action"]
              (CloudwatchEvent.DetailType event)) eqn:Hlifecycle;
    cbn zeta; rewrite after_return_err, sendMessage_slack_messages;
    eexists; (split; [reflexivity|]); (split; [reflexivity|]);
    (split; [reflexivity|]); cbn [SlackAttachment.Color].
  - apply contains_spec in Hlifecycle.
    assert (CloudwatchEvent.DetailType event
              ∉ ["EC2 Instance Launch Unsuccessful";
                 "EC2 Instance Terminate Unsuccessful"]) as Hnot.
    { intros Hin. rewrite !elem_of_cons, elem_of_nil in Hlifecycle, Hin.
      destruct Hin as [Heq | [Heq | []]]; rewrite Heq in Hlifecycle;
        destruct Hlifecycle as [? | [? | []]]; discriminate. }
    split; split; intros H; (done || discriminate).
  - rewrite <- contains_spec.
    destruct (contains ["EC2 Instance Launch Unsuccessful";
                        "EC2 Instance Terminate Unsuccessful"]
                (CloudwatchEvent.DetailType event));
      (split; split; intros H; (reflexivity || discriminate || by destruct H)).
Qed.

(** *** Failing alarms *)

(** How [processSNSRecord] runs on a failing alarm whose chat message was
    answered: as [triggerIncident], from the world the chat sender left. *)
Lemma processSNSRecord_failing_run slackNotifier pagerdutyNotifier w
    (record : SNSRecord) (alarm : CloudwatchAlarm) (res : Response) :
  let subject := SNSMessage.Subject (SNSRecord.Sns record) in
  strings_Contains subject "ALARM:" = true ->
  json_Unmarshal (SNSMessage.Message (SNSRecord.Sns record)) = Decoded_ok alarm ->
  World.net w (length (World.posts w)) = PostResponse res ->
  processSNSRecord slackNotifier pagerdutyNotifier record w
    = triggerIncident pagerdutyNotifier (alarm_incident subject alarm)
        (logged "Slack message sent"
           (posted (slack_request slackNotifier (alarm_slack_message subject alarm))
              "Sending Slack message..." w)).
Proof.
  intros subject Hfailing Halarm Hnet.
  rewrite (processSNSRecord_alarm_run _ _ _ _ alarm);
    [|by (fold subject; rewrite Hfailing) | assumption].
  fold subject. rewrite Hfailing, sendMessage_run. cbn zeta. by rewrite Hnet.
Qed.

(** X14. The incident key is [incident] followed by the dimension values
    without a separator, so two failing alarms get the same key exactly
    when their values concatenate to the same string, whatever their
    subjects, their dimension names, and the way the string is cut into
    values. *)
Theorem X14_incident_keys_coincide slackNotifier pagerdutyNotifier
    (w1 w2 : World) (r1 r2 : SNSRecord) (a1 a2 : CloudwatchAlarm) (res1 res2 : Response) :
  let values (a : CloudwatchAlarm) :=
    CloudwatchAlarmTriggerDimension.Value <$>
      CloudwatchAlarmTrigger.Dimensions (CloudwatchAlarm.Trigger a) in
  strings_Contains (SNSMessage.Subject (SNSRecord.Sns r1)) "ALARM:" = true ->
  strings_Contains (SNSMessage.Subject (SNSRecord.Sns r2)) "ALARM:" = true ->
  json_Unmarshal (SNSMessage.Message (SNSRecord.Sns r1)) = Decoded_ok a1 ->
  json_Unmarshal (SNSMessage.Message (SNSRecord.Sns r2)) = Decoded_ok a2 ->
  World.net w1 (length (World.posts w1)) = PostResponse res1 ->
  World.net w2 (length (World.posts w2)) = PostResponse res2 ->
  exists req1 req2,
    incidents (after (processSNSRecord slackNotifier pagerdutyNotifier r1) w1)
      = incidents w1 ++ [req1] /\
    incidents (after (processSNSRecord slackNotifier pagerdutyNotifier r2) w2)
      = incidents w2 ++ [req2] /\
    (PagerdutyIncidentRequest.IncidentKey req1 = PagerdutyIncidentRequest.IncidentKey req2
     <-> concat_strings (values a1) = concat_strings (values a2)).
Proof.
  intros values Hfailing1 Hfailing2 Ha1 Ha2 Hnet1 Hnet2.
  exists (incident_request pagerdutyNotifier
            (alarm_incident (SNSMessage.Subject (SNSRecord.Sns r1)) a1)),
         (incident_request pagerdutyNotifier
            (alarm_incident (SNSMessage.Subject (SNSRecord.Sns r2)) a2)).
  split; [|split].
  - unfold after.
    rewrite (processSNSRecord_failing_run _ _ _ _ a1 res1) by assumption.
    match goal with
    | |- context [triggerIncident ?p ?i ?w'] =>
        pose proof (triggerIncident_posts_request p i w') as Hposts
    end.
    unfold after in Hposts.
    rewrite (incidents_app w1
               [slack_request slackNotifier
                  (alarm_slack_message (SNSMessage.Subject (SNSRecord.Sns r1)) a1);
                pagerduty_request
                  (incident_request pagerdutyNotifier
                     (alarm_incident (SNSMessage.Subject (SNSRecord.Sns r1)) a1))]);
      [reflexivity|].
    rewrite Hposts. cbn. by rewrite <- app_assoc.
  - unfold after.
    rewrite (processSNSRecord_failing_run _ _ _ _ a2 res2) by assumption.
    match goal with
    | |- context [triggerIncident ?p ?i ?w'] =>
        pose proof (triggerIncident_posts_request p i w') as Hposts
    end.
    unfold after in Hposts.
    rewrite (incidents_app w2
               [slack_request slackNotifier
                  (alarm_slack_message (SNSMessage.Subject (SNSRecord.Sns r2)) a2);
                pagerduty_request
                  (incident_request pagerdutyNotifier
                     (alarm_incident (SNSMessage.Subject (SNSRecord.Sns r2)) a2))]);
      [reflexivity|].
    rewrite Hposts. cbn. by rewrite <- app_assoc.
  - cbn [incident_request alarm_incident PagerdutyIncident.IncidentKey
         PagerdutyIncidentRequest.IncidentKey].
    fold (values a1) (values a2).
    split; [apply (inj (String.app "incident")) | by intros ->].
Qed.

(** X18. When the chat message of a failing alarm is answered and the
    request to Pagerduty comes back with an error, [processSNSRecord]
    returns that error with the prefix of the paging sender; both requests
    have been issued, and the chat message stays sent. *)
Theorem X18_paging_error_after_chat_message slackNotifier pagerdutyNotifier w
    (record : SNSRecord) (alarm : CloudwatchAlarm) (res res' : Response) (err : string) :
  let subject := SNSMessage.Subject (SNSRecord.Sns record) in
  strings_Contains subject "ALARM:" = true ->
  json_Unmarshal (SNSMessage.Message (SNSRecord.Sns record)) = Decoded_ok alarm ->
  World.net w (length (World.posts w)) = PostResponse res ->
  World.net w (S (length (World.posts w))) = PostRedirectError res' err ->
  outcome (processSNSRecord slackNotifier pagerdutyNotifier record) w
    = Returned (Some ("failed to trigger Pagerduty Incident - got error: " +:+ err)) /\
  World.posts (after (processSNSRecord slackNotifier pagerdutyNotifier record) w)
    = World.posts w ++
      [slack_request slackNotifier (alarm_slack_message subject alarm);
       pagerduty_request
         (incident_request pagerdutyNotifier (alarm_incident subject alarm))].
Proof.
  intros subject Hfailing Halarm Hnet Hnet'. unfold outcome, after.
  rewrite (processSNSRecord_failing_run _ _ _ _ alarm res) by assumption.
  fold subject. rewrite triggerIncident_run. cbn zeta.
  cbn [logged posted World.posts World.net].
  rewrite length_app. cbn [length]. rewrite Nat.add_1_r, Hnet'.
  split; [reflexivity|]. cbn. by rewrite <- app_assoc.
Qed.

(** *** The dispatcher, end to end *)

(** X15. [processMessage] pages only for SNS batches: when a run has sent
    an incident, the envelope decoded, its record list has a first record,
    and the [EventSource] of that record is the string [aws:sns]. *)
Theorem X15_only_sns_batches_page slackNotifier pagerdutyNotifier raw w :
  incidents (after (processMessage slackNotifier pagerdutyNotifier raw) w)
    <> incidents w ->
  exists data first rest,
    json_Unmarshal raw = Decoded_ok data /\
    GenericEvent.Records data = Some (first :: rest) /\
    first !! "EventSource" = Some (VString "aws:sns").
Proof.
  intros Hsent.
  destruct (processMessage_cases slackNotifier pagerdutyNotifier raw w)
    as [(e & _ & Hrun) | [(data & first & rest & Hdata & Hrecords & Hsource & _)
                         | [(data & first & rest & _ & _ & _ & Hrun)
                           | (data & _ & _ & Hrun)]]].
  - destruct Hsent. unfold after. by rewrite Hrun.
  - by exists data, first, rest.
  - destruct Hsent. unfold after. by rewrite Hrun.
  - destruct Hsent. unfold after. rewrite Hrun.
    destruct (processCloudwatchEvent_requests slackNotifier pagerdutyNotifier raw w)
      as [_ [Hposts | [msg Hposts]]]; unfold after in Hposts.
    + unfold incidents. by rewrite Hposts.
    + rewrite (incidents_app w [slack_request slackNotifier msg] _ Hposts).
      apply app_nil_r.
Qed.

(** X16. The envelope is decoded loosely and the record list strictly: when
    the envelope names an SNS batch and the list of records does not
    decode, [processMessage] returns the error of the list, with its
    prefix, and nothing is sent or logged. *)
Theorem X16_sns_batch_that_does_not_decode slackNotifier pagerdutyNotifier raw w
    (data : GenericEvent) (first : gmap string Value) (rest : list (gmap string Value))
    (e : string) :
  json_Unmarshal raw = Decoded_ok data ->
  GenericEvent.Records data = Some (first :: rest) ->
  first !! "EventSource" = Some (VString "aws:sns") ->
  json_Unmarshal (T := SNSRecordList) raw = Decoded_err e ->
  processMessage slackNotifier pagerdutyNotifier raw w
    = (Returned (Some ("could not unmarshal SNS record list: " +:+ e)), w).
Proof.
  intros Hdata Hrecords Hsource Hlist. unfold processMessage.
  rewrite Hdata, Hrecords, Hsource. cbn [interface_eq_string].
  rewrite String.eqb_refl, return_err_run. unfold processSNSRecords.
  by rewrite Hlist.
Qed.

(** X17. When the chat request of a Cloudwatch event comes back with an
    error, [processCloudwatchEvent] returns the sender's error: with the
    prefix of the EC2 handler for a state-change event whose detail
    decodes, with the prefix of the autoscaling handler for an autoscaling
    event, and as it is for an event of any other handled source. *)
Theorem X17_event_sink_errors slackNotifier pagerdutyNotifier raw w
    (event : CloudwatchEvent) (res : Response) (err : string) :
  json_Unmarshal raw = Decoded_ok event ->
  World.net w (length (World.posts w)) = PostRedirectError res err ->
  (CloudwatchEvent.Source event = "aws.ec2" ->
   CloudwatchEvent.DetailType event = "EC2 Instance State-change Notification" ->
   (exists eventDetail : DetailEC2StateChange,
       json_Unmarshal (CloudwatchEvent.Detail event) = Decoded_ok eventDetail) ->
   outcome (processCloudwatchEvent slackNotifier pagerdutyNotifier raw) w
     = Returned (Some ("failed to process EC2 Event: " +:+
                       "Failed to send Slack message - got error: " +:+ err))) /\
  (CloudwatchEvent.Source event = "aws.autoscaling" ->
   outcome (processCloudwatchEvent slackNotifier pagerdutyNotifier raw) w
     = Returned (Some ("failed to process Autoscaling Event: " +:+
                       "Failed to send Slack message - got error: " +:+ err))) /\
  (CloudwatchEvent.Source event <> "aws.ec2" ->
   CloudwatchEvent.Source event <> "aws.events" ->
   CloudwatchEvent.Source event <> "aws.autoscaling" ->
   outcome (processCloudwatchEvent slackNotifier pagerdutyNotifier raw) w
     = Returned (Some ("Failed to send Slack message - got error: " +:+ err))).
Proof.
  intros Hraw Hnet. unfold outcome, processCloudwatchEvent. rewrite Hraw.
  split; [|split].
  - intros Hsource Htype [eventDetail Hdetail].
    rewrite Hsource, Htype, !String.eqb_refl, bind_run.
    unfold processEC2StateChangeEvent. rewrite Hdetail. cbn zeta.
    rewrite return_err_run, sendMessage_run. cbn zeta. by rewrite Hnet.
  - intros Hsource.
    rewrite Hsource, (proj2 (String.eqb_neq "aws.autoscaling" "aws.ec2")),
      (proj2 (String.eqb_neq "aws.autoscaling" "aws.events")), String.eqb_refl
      by discriminate.
    rewrite bind_run. unfold processAutoscalingEvent.
    case_cond; cbn zeta; rewrite return_err_run, sendMessage_run; cbn zeta;
      by rewrite Hnet.
  - intros Hec2 Hevents Hautoscaling.
    apply String.eqb_neq in Hec2, Hevents, Hautoscaling.
    rewrite Hec2, Hevents, Hautoscaling. cbn zeta.
    rewrite return_err_run, sendMessage_run. cbn zeta. by rewrite Hnet.
Qed.

(** X19. The alarm patterns are looked for anywhere in the subject and
    before the other branches: a record whose subject contains [ALARM:] or
    [OK:] and whose message is not an alarm document fails with the error of
    the decoder, and nothing is sent or logged, also when the subject is
    that of an RDS notification. *)
Theorem X19_alarm_patterns_come_first slackNotifier pagerdutyNotifier w
    (record : SNSRecord) (e : string) :
  let subject := SNSMessage.Subject (SNSRecord.Sns record) in
  strings_Contains subject "ALARM:" = true \/ strings_Contains subject "OK:" = true ->
  json_Unmarshal (T := CloudwatchAlarm) (SNSMessage.Message (SNSRecord.Sns record))
    = Decoded_err e ->
  processSNSRecord slackNotifier pagerdutyNotifier record w
    = (Returned (Some ("could not unmarshal Cloudwatch Alarm payload: " +:+ e)), w) /\
  (strings_Contains subject "RDS Notification Message" = true ->
   processSNSRecord slackNotifier pagerdutyNotifier record w
     <> processSNSRecord_rds slackNotifier record w).
Proof.
  intros subject Hsubject Halarm.
  assert (processSNSRecord slackNotifier pagerdutyNotifier record w
          = (Returned (Some ("could not unmarshal Cloudwatch Alarm payload: " +:+ e)), w))
    as Hrun.
  { apply processSNSRecord_undecodable; [|exact Halarm].
    fold subject. destruct Hsubject as [-> | ->]; [reflexivity | apply orb_true_r]. }
  split; [exact Hrun|]. intros _. rewrite Hrun.
  unfold processSNSRecord_rds. cbn zeta. rewrite return_err_run, sendMessage_run.
  cbn zeta. intros Heq.
  assert (length (World.posts w) = length (World.posts w ++
            [slack_request slackNotifier
               (SlackMessage.mk [
                  SlackAttachment.mk (SNSMessage.Message (SNSRecord.Sns record)) ColorInfo
                    [ SlackField.mk (SNSMessage.Subject (SNSRecord.Sns record))
                        (SNSMessage.Message (SNSRecord.Sns record)) false ] ])]))
    as Hlength.
  { destruct (World.net w (length (World.posts w)));
      injection Heq as _ Hw; by rewrite Hw at 1. }
  rewrite length_app in Hlength. cbn in Hlength. lia.
Qed.
End Traces.
(** ** The properties on the sample payloads, with the reference decoder *)

#[local] Existing Instances
  GoJSON.GenericEvent_json GoJSON.SNSRecordList_json GoJSON.CloudwatchAlarm_json
  GoJSON.CloudwatchEvent_json GoJSON.DetailEC2StateChange_json.

(** The value that a text decodes to. *)
Ltac decoded_value d :=
  let r := eval vm_compute in d in
  match r with
  | Decoded_ok ?v => exact v
  end.

(** With the network down, both senders panic. *)
Lemma C9_witness :
  World.net Sample.world_down (length (World.posts Sample.world_down))
    = PostTransportError "dial tcp: connect: connection refused" /\
  outcome (sendMessage Sample.slack (SlackMessage.mk [])) Sample.world_down
    = Panicked nil_dereference /\
  outcome (triggerIncident Sample.pagerduty
             (PagerdutyIncident.mk "d" "incident" (PagerdutyIncidentDetails.mk ∅)))
          Sample.world_down
    = Panicked nil_dereference.
Proof.
  split; [reflexivity|].
  exact (C9_transport_failure_panics Sample.slack Sample.pagerduty
           (SlackMessage.mk [])
           (PagerdutyIncident.mk "d" "incident" (PagerdutyIncidentDetails.mk ∅))
           Sample.world_down "dial tcp: connect: connection refused" eq_refl).
Defined.

(** A spot interruption warning is dropped. *)
Lemma C10_witness :
  processCloudwatchEvent Sample.slack Sample.pagerduty Sample.ec2_spot_text
    Sample.world_up
  = (Returned None, Sample.world_up).
Proof.
  apply (C10_other_ec2_events_dropped Sample.slack Sample.pagerduty
           Sample.ec2_spot_text Sample.world_up
           ltac:(decoded_value (GoJSON.CloudwatchEvent_json Sample.ec2_spot_text))).
  - vm_compute. reflexivity.
  - reflexivity.
  - discriminate.
Defined.

(** The sample batch is an SNS batch, the EC2 event goes to the Cloudwatch
    processor, and the S3 records are logged and dropped. *)
Lemma C4_witness :
  processMessage Sample.slack Sample.pagerduty Sample.batch_text Sample.world_up
    = processSNSRecords Sample.slack Sample.pagerduty Sample.batch_text Sample.world_up /\
  processMessage Sample.slack Sample.pagerduty (Sample.ec2_text "pending") Sample.world_up
    = processCloudwatchEvent Sample.slack Sample.pagerduty (Sample.ec2_text "pending")
        Sample.world_up /\
  processMessage Sample.slack Sample.pagerduty Sample.s3_text Sample.world_up
    = (Returned None, logged "No SNS records to process" Sample.world_up).
Proof.
  split; [|split].
  - pose (data := ltac:(decoded_value (GoJSON.GenericEvent_json Sample.batch_text))).
    assert (json_Unmarshal Sample.batch_text = Decoded_ok data) as Hdata
      by (vm_compute; reflexivity).
    destruct (C4_processMessage_routes Sample.slack Sample.pagerduty
                Sample.batch_text Sample.world_up data Hdata) as (Hsns & _ & _).
    eapply Hsns; [reflexivity | vm_compute; reflexivity].
  - pose (data := ltac:(decoded_value (GoJSON.GenericEvent_json (Sample.ec2_text "pending")))).
    assert (json_Unmarshal (Sample.ec2_text "pending") = Decoded_ok data) as Hdata
      by (vm_compute; reflexivity).
    destruct (C4_processMessage_routes Sample.slack Sample.pagerduty
                (Sample.ec2_text "pending") Sample.world_up data Hdata) as (_ & Hevent & _).
    apply Hevent. left. reflexivity.
  - pose (data := ltac:(decoded_value (GoJSON.GenericEvent_json Sample.s3_text))).
    assert (json_Unmarshal Sample.s3_text = Decoded_ok data) as Hdata
      by (vm_compute; reflexivity).
    destruct (C4_processMessage_routes Sample.slack Sample.pagerduty
                Sample.s3_text Sample.world_up data Hdata) as (_ & _ & Hother).
    eapply Hother; [reflexivity | vm_compute; discriminate].
Defined.

(** A terminated instance is reported in the warn color, a pending one in
    the info color. *)
Lemma C6_witness :
  slack_messages
    (after (processEC2StateChangeEvent Sample.slack Sample.pagerduty
              (Sample.ec2_event "terminated")) Sample.world_up)
    = [ SlackMessage.mk [
          SlackAttachment.mk "EC2 Instance State-change" ColorWarn
            [ SlackField.mk "CloudWatch Event" "EC2 Instance State-change" false;
              SlackField.mk "instance-id" "i-abcd1111" true;
              SlackField.mk "state" "terminated" true ] ] ] /\
  slack_messages
    (after (processEC2StateChangeEvent Sample.slack Sample.pagerduty
              (Sample.ec2_event "pending")) Sample.world_up)
    = [ SlackMessage.mk [
          SlackAttachment.mk "EC2 Instance State-change" ColorInfo
            [ SlackField.mk "CloudWatch Event" "EC2 Instance State-change" false;
              SlackField.mk "instance-id" "i-abcd1111" true;
              SlackField.mk "state" "pending" true ] ] ].
Proof.
  split.
  - destruct (C6_ec2_state_color Sample.slack Sample.pagerduty Sample.world_up
                (Sample.ec2_event "terminated")
                (DetailEC2StateChange.mk "i-abcd1111" "terminated"))
      as (color & Hsent & Hwarn & _); [vm_compute; reflexivity|].
    rewrite Hsent. cbn [DetailEC2StateChange.State] in Hwarn.
    rewrite (proj2 Hwarn); [reflexivity|].
    apply contains_spec. reflexivity.
  - destruct (C6_ec2_state_color Sample.slack Sample.pagerduty Sample.world_up
                (Sample.ec2_event "pending")
                (DetailEC2StateChange.mk "i-abcd1111" "pending"))
      as (color & Hsent & _ & Hinfo); [vm_compute; reflexivity|].
    rewrite Hsent. cbn [DetailEC2StateChange.State] in Hinfo.
    rewrite (proj2 Hinfo); [reflexivity|].
    rewrite <- contains_spec. discriminate.
Defined.

(** The lifecycle event of the source's own comment: its detail names the
    group [my-asg], the instance and the transition, and the message sent
    carries empty strings in their place. *)
Lemma C2_witness :
  (exists eventDetail,
      GoJSON.DetailAutoScalingLifecycleEvent_json
        (CloudwatchEvent.Detail Sample.lifecycle_event) = Decoded_ok eventDetail /\
      DetailAutoScalingLifecycleEvent.AutoScalingGroupName eventDetail = "my-asg" /\
      DetailAutoScalingLifecycleEvent.EC2InstanceId eventDetail = "i-1234567890abcdef0" /\
      DetailAutoScalingLifecycleEvent.LifecycleTransition eventDetail
        = "autoscaling:EC2_INSTANCE_LAUNCHING") /\
  exists msg,
    slack_messages
      (after (processAutoscalingEvent Sample.slack Sample.pagerduty Sample.lifecycle_event)
         Sample.world_up) = [msg] /\
    narrow_values msg = [""; ""; ""].
Proof.
  split.
  - eexists. split; [vm_compute; reflexivity|]. repeat split.
  - exact (C2_autoscaling_detail_not_decoded Sample.slack Sample.pagerduty
             Sample.world_up Sample.lifecycle_event).
Defined.

(** A plain record: the catch-all branch, run as the RDS branch. *)
Lemma C7_witness :
  processSNSRecord_plain Sample.slack Sample.plain_record Sample.world_up
    = processSNSRecord_rds Sample.slack Sample.plain_record Sample.world_up /\
  processSNSRecord Sample.slack Sample.pagerduty Sample.plain_record Sample.world_up
    = processSNSRecord_rds Sample.slack Sample.plain_record Sample.world_up /\
  slack_messages
    (after (processSNSRecord Sample.slack Sample.pagerduty Sample.plain_record)
       Sample.world_up)
    = [ SlackMessage.mk [
          SlackAttachment.mk "Hello from SNS!" ColorInfo
            [ SlackField.mk "TestInvoke" "Hello from SNS!" false ] ] ].
Proof.
  exact (C7_plain_branch_as_rds_branch Sample.slack Sample.pagerduty Sample.world_up
           Sample.plain_record eq_refl eq_refl).
Defined.

(** The EC2 event pages nobody; the failing alarm does, and its subject
    contains [ALARM:]. *)
Lemma C8_witness :
  incidents
    (after (processCloudwatchEvent Sample.slack Sample.pagerduty
              (Sample.ec2_text "terminated")) Sample.world_up) = [] /\
  strings_Contains
    (SNSMessage.Subject (SNSRecord.Sns Sample.failing_record)) "ALARM:" = true.
Proof.
  destruct (C8_only_failing_alarms_page Sample.slack Sample.pagerduty Sample.world_up)
    as [Hevents Hrecords].
  split; [apply Hevents|].
  apply Hrecords. vm_compute. discriminate.
Defined.

(** The failing alarm with the dimensions [az] and [db]: its chat message. *)
Lemma C5_witness :
  slack_messages
    (after (processSNSRecord Sample.slack Sample.pagerduty Sample.failing_record)
       Sample.world_up)
  = [ SlackMessage.mk [
        SlackAttachment.mk
          ("Threshold Crossed: 1 datapoint (10.0) was greater than " +:+
           "or equal to the threshold (1.0).")
          ColorError
          [ SlackField.mk "ALARM: replica-lag in EU - Ireland"
              ("Threshold Crossed: 1 datapoint (10.0) was greater than " +:+
               "or equal to the threshold (1.0).") false;
            SlackField.mk "az" "us-east-1b" true;
            SlackField.mk "db" "primary" true;
            SlackField.mk "Namespace" "AWS/RDS" true;
            SlackField.mk "MetricName" "ReplicaLag" true ] ] ].
Proof.
  pose (alarm := ltac:(decoded_value (GoJSON.CloudwatchAlarm_json Sample.alarm_text))).
  rewrite (C5_alarm_chat_message Sample.slack Sample.pagerduty Sample.world_up
             Sample.failing_record alarm);
    [reflexivity | reflexivity | vm_compute; reflexivity].
Defined.

(** The failing alarm with the dimensions [az] and [db], its chat message
    delivered: the incident. The same alarm back to OK: no incident. *)
Lemma C1_witness :
  (exists req,
      incidents
        (after (processSNSRecord Sample.slack Sample.pagerduty Sample.failing_record)
           Sample.world_up) = [req] /\
      PagerdutyIncidentRequest.Description req
        = "ALARM: replica-lag in EU - Ireland-Threshold Crossed: 1 datapoint (10.0) " +:+
          "was greater than or equal to the threshold (1.0)." /\
      PagerdutyIncidentRequest.IncidentKey req = "incidentus-east-1bprimary" /\
      PagerdutyIncidentDetails.Fields (PagerdutyIncidentRequest.Details req)
        = {[ "az" := "us-east-1b"; "db" := "primary" ]}) /\
  incidents
    (after (processSNSRecord Sample.slack Sample.pagerduty Sample.recovered_record)
       Sample.world_up) = [].
Proof.
  split.
  - pose (alarm := ltac:(decoded_value (GoJSON.CloudwatchAlarm_json Sample.alarm_text))).
    destruct (proj1 (C1_failing_alarm_incident Sample.slack Sample.pagerduty
                       Sample.world_up Sample.failing_record)
                alarm (Response.mk 200))
      as (msg & req & _ & Hsent & Hdescription & Hkey & _ & Hfields & _);
      [reflexivity | vm_compute; reflexivity | reflexivity |].
    exists req. split; [exact Hsent|]. split; [exact Hdescription|].
    split; [exact Hkey|].
    apply map_eq. intros name. rewrite Hfields.
    destruct (decide (name = "az")) as [-> | Haz]; [reflexivity|].
    destruct (decide (name = "db")) as [-> | Hdb]; [reflexivity|].
    rewrite lookup_insert_ne, lookup_singleton_ne by done.
    subst alarm. cbn [CloudwatchAlarmTrigger.Dimensions CloudwatchAlarm.Trigger].
    rewrite !last_dimension_value_cons.
    cbn [CloudwatchAlarmTriggerDimension.Name CloudwatchAlarmTriggerDimension.Value].
    destruct (String.eqb_spec "az" name); [congruence|].
    destruct (String.eqb_spec "db" name); [congruence|]. reflexivity.
  - apply (proj2 (C1_failing_alarm_incident Sample.slack Sample.pagerduty
                    Sample.world_up Sample.recovered_record)); reflexivity.
Defined.

(** As first stated, without the condition on the chat message and with
    each dimension's own value in the detail fields, the property fails.
    When the webhook request ends in an error (here the redirect limit),
    [processSNSRecord] returns that error and sends no incident, although
    the subject contains [ALARM:] and the message decodes. And of two
    dimensions called [host], with the values [a] and [b], the detail fields
    keep [b] only. *)
Lemma C1_counterexample :
  (strings_Contains (SNSMessage.Subject (SNSRecord.Sns Sample.failing_record)) "ALARM:"
     = true /\
   (exists alarm : CloudwatchAlarm,
       json_Unmarshal (SNSMessage.Message (SNSRecord.Sns Sample.failing_record))
         = Decoded_ok alarm) /\
   outcome (processSNSRecord Sample.slack Sample.pagerduty Sample.failing_record)
     Sample.world_redirecting
     = Returned
         (Some "Failed to send Slack message - got error: stopped after 10 redirects") /\
   incidents
     (after (processSNSRecord Sample.slack Sample.pagerduty Sample.failing_record)
        Sample.world_redirecting) = []) /\
  (exists alarm req,
      json_Unmarshal (SNSMessage.Message (SNSRecord.Sns Sample.repeated_name_record))
        = Decoded_ok alarm /\
      CloudwatchAlarmTrigger.Dimensions (CloudwatchAlarm.Trigger alarm)
        = [ CloudwatchAlarmTriggerDimension.mk "host" "a";
            CloudwatchAlarmTriggerDimension.mk "host" "b" ] /\
      incidents
        (after (processSNSRecord Sample.slack Sample.pagerduty Sample.repeated_name_record)
           Sample.world_up) = [req] /\
      PagerdutyIncidentDetails.Fields (PagerdutyIncidentRequest.Details req) !! "host"
        = Some "b" /\
      PagerdutyIncidentDetails.Fields (PagerdutyIncidentRequest.Details req) !! "host"
        <> Some "a").
Proof.
  split.
  - split; [reflexivity|]. split; [eexists; vm_compute; reflexivity|].
    split; vm_compute; reflexivity.
  - eexists. eexists. split; [vm_compute; reflexivity|].
    split; [reflexivity|]. split; [vm_compute; reflexivity|].
    split; [vm_compute; reflexivity | vm_compute; discriminate].
Qed.

(** The sample batch: the first record is a plain message, the second has an
    alarm subject and a message that is not JSON. The run returns the
    second record's error and leaves the world as the first record left it,
    with one chat message sent. *)
Lemma C3_witness :
  processSNSRecords Sample.slack Sample.pagerduty Sample.batch_text Sample.world_up
    = (Returned
         (Some ("could not process SNS record: " +:+
                "could not unmarshal Cloudwatch Alarm payload: json: syntax error")),
       after (processSNSRecord Sample.slack Sample.pagerduty Sample.batch_first)
         Sample.world_up) /\
  slack_messages
    (after (processSNSRecords Sample.slack Sample.pagerduty Sample.batch_text)
       Sample.world_up)
    = [ SlackMessage.mk [
          SlackAttachment.mk "Hello from SNS!" ColorInfo
            [ SlackField.mk "TestInvoke" "Hello from SNS!" false ] ] ].
Proof.
  destruct (C3_fail_fast Sample.slack Sample.pagerduty Sample.batch_text Sample.world_up)
    as (_ & Hfirst_error & Hthree).
  split.
  - apply (Hfirst_error [Sample.batch_first] Sample.batch_second [Sample.batch_third]
             (after (processSNSRecord Sample.slack Sample.pagerduty Sample.batch_first)
                Sample.world_up));
      vm_compute; reflexivity.
  - destruct (Hthree Sample.batch_first Sample.batch_second Sample.batch_third
                "json: syntax error") as [Hafter _].
    + vm_compute; reflexivity.
    + discriminate.
    + reflexivity.
    + vm_compute; reflexivity.
    + rewrite Hafter. vm_compute. reflexivity.
Defined.

(** *** The further properties on the sample payloads *)

(** A function deployed without its webhook, and one without its key. *)
Lemma X4_witness :
  HandleRequest Sample.env_without_webhook Sample.alarm_batch_text Sample.world_up
    = (Returned (Some "could not read slack_webhook_enc from environment"),
       logged "Receiving new Event(s)" Sample.world_up) /\
  HandleRequest Sample.env_without_key Sample.alarm_batch_text Sample.world_up
    = (Returned (Some "could not read pagerduty_key from environment"),
       logged "Receiving new Event(s)" Sample.world_up).
Proof.
  split.
  - apply (proj1 (X4_HandleRequest_missing_setting Sample.env_without_webhook
                    Sample.alarm_batch_text Sample.world_up)).
    vm_compute. reflexivity.
  - apply (proj2 (X4_HandleRequest_missing_setting Sample.env_without_key
                    Sample.alarm_batch_text Sample.world_up)
             "https://hooks.slack.com/services/T000/B000/XXXX");
      vm_compute; reflexivity.
Defined.

(** The failing alarm, delivered as an SNS batch to the configured function. *)
Lemma X5_witness :
  exists rs,
    World.posts (after (HandleRequest Sample.env_full Sample.alarm_batch_text)
                   Sample.world_up)
      = World.posts Sample.world_up ++ rs /\
    Forall (sink_request "https://hooks.slack.com/services/T000/B000/XXXX"
              "0123456789abcdef") rs.
Proof.
  apply (X5_HandleRequest_requests_go_to_the_sinks Sample.env_full
           Sample.alarm_batch_text Sample.world_up);
    vm_compute; reflexivity.
Defined.

(** A batch of two plain messages, both delivered. *)
Lemma X9_witness :
  outcome (processSNSRecords Sample.slack Sample.pagerduty Sample.plain_batch_text)
    Sample.world_up = Returned None /\
  length (slack_messages
            (after (processSNSRecords Sample.slack Sample.pagerduty
                      Sample.plain_batch_text) Sample.world_up)) = 2.
Proof.
  split; [vm_compute; reflexivity|].
  pose (recordList :=
          ltac:(decoded_value (GoJSON.SNSRecordList_json Sample.plain_batch_text))).
  destruct (X9_batch_chat_messages Sample.slack Sample.pagerduty
              Sample.plain_batch_text Sample.world_up recordList)
    as [_ Hnil]; [vm_compute; reflexivity|].
  destruct Hnil as [Hcount _]; [vm_compute; reflexivity|].
  exact Hcount.
Defined.

(** An event whose resources are not a list, and a state-change event whose
    state is a number. *)
Lemma X10_witness :
  processCloudwatchEvent Sample.slack Sample.pagerduty Sample.odd_event_text
    Sample.world_up
    = (Returned
         (Some ("unsupported Cloudwatch Event payload: " +:+
                "json: cannot unmarshal string into Go value of type []string")),
       Sample.world_up) /\
  processCloudwatchEvent Sample.slack Sample.pagerduty Sample.ec2_odd_state_text
    Sample.world_up
    = (Returned
         (Some ("failed to process EC2 Event: " +:+
                "unsupported EC2 Cloudwatch Event Detail: " +:+
                "json: cannot unmarshal number into Go value of type string")),
       Sample.world_up).
Proof.
  split.
  - apply (proj1 (X10_event_decode_failures Sample.slack Sample.pagerduty
                    Sample.odd_event_text Sample.world_up
                    "json: cannot unmarshal string into Go value of type []string")).
    vm_compute. reflexivity.
  - apply (proj2 (X10_event_decode_failures Sample.slack Sample.pagerduty
                    Sample.ec2_odd_state_text Sample.world_up
                    "json: cannot unmarshal number into Go value of type string")
             ltac:(decoded_value (GoJSON.CloudwatchEvent_json Sample.ec2_odd_state_text)));
      vm_compute; reflexivity.
Defined.

(** A scheduled event. *)
Lemma X11_witness :
  processCloudwatchEvent Sample.slack Sample.pagerduty Sample.scheduled_text
    Sample.world_up
  = (Returned None, Sample.world_up).
Proof.
  apply (X11_scheduled_events_ignored Sample.slack Sample.pagerduty
           Sample.scheduled_text Sample.world_up
           ltac:(decoded_value (GoJSON.CloudwatchEvent_json Sample.scheduled_text)));
    vm_compute; reflexivity.
Defined.

(** A health event: the detail goes out as it came, white space included. *)
Lemma X12_witness :
  processCloudwatchEvent Sample.slack Sample.pagerduty Sample.health_text
    Sample.world_up
  = sendMessage Sample.slack
      (SlackMessage.mk [
         SlackAttachment.mk "aws.health" ColorInfo
           [ SlackField.mk "CloudWatch Event" "aws.health" false;
             SlackField.mk "Event Detail JSON"
               (GoJSON.text "{ 'service' : 'EC2' }") false ] ])
      Sample.world_up.
Proof.
  apply (X12_other_sources_generic_message Sample.slack Sample.pagerduty
           Sample.health_text Sample.world_up
           ltac:(decoded_value (GoJSON.CloudwatchEvent_json Sample.health_text)));
    [vm_compute; reflexivity | discriminate | discriminate | discriminate].
Defined.

(** Two alarms with the values [ab], [c] and [a], [bc]: one incident key. *)
Lemma X14_witness :
  exists req1 req2,
    incidents (after (processSNSRecord Sample.slack Sample.pagerduty Sample.ab_c_record)
                 Sample.world_up) = [req1] /\
    incidents (after (processSNSRecord Sample.slack Sample.pagerduty Sample.a_bc_record)
                 Sample.world_up) = [req2] /\
    PagerdutyIncidentRequest.IncidentKey req1 = PagerdutyIncidentRequest.IncidentKey req2.
Proof.
  destruct (X14_incident_keys_coincide Sample.slack Sample.pagerduty
              Sample.world_up Sample.world_up Sample.ab_c_record Sample.a_bc_record
              ltac:(decoded_value (GoJSON.CloudwatchAlarm_json Sample.alarm_text_ab_c))
              ltac:(decoded_value (GoJSON.CloudwatchAlarm_json Sample.alarm_text_a_bc))
              (Response.mk 200) (Response.mk 200))
    as (req1 & req2 & Hsent1 & Hsent2 & Hkeys);
    [reflexivity | reflexivity | vm_compute; reflexivity | vm_compute; reflexivity
    | reflexivity | reflexivity |].
  exists req1, req2. split; [exact Hsent1|]. split; [exact Hsent2|].
  apply Hkeys. reflexivity.
Defined.

(** The failing alarm pages, and its envelope names an SNS batch. *)
Lemma X15_witness :
  exists data first rest,
    json_Unmarshal Sample.alarm_batch_text = Decoded_ok data /\
    GenericEvent.Records data = Some (first :: rest) /\
    first !! "EventSource" = Some (VString "aws:sns").
Proof.
  apply (X15_only_sns_batches_page Sample.slack Sample.pagerduty
           Sample.alarm_batch_text Sample.world_up).
  vm_compute. discriminate.
Defined.

(** A batch whose record has a number for a subject. *)
Lemma X16_witness :
  processMessage Sample.slack Sample.pagerduty Sample.odd_batch_text Sample.world_up
  = (Returned
       (Some ("could not unmarshal SNS record list: " +:+
              "json: cannot unmarshal number into Go value of type string")),
     Sample.world_up).
Proof.
  pose (data := ltac:(decoded_value (GoJSON.GenericEvent_json Sample.odd_batch_text))).
  eapply (X16_sns_batch_that_does_not_decode Sample.slack Sample.pagerduty
            Sample.odd_batch_text Sample.world_up data);
    [vm_compute; reflexivity | reflexivity | vm_compute; reflexivity
    | vm_compute; reflexivity].
Defined.

(** The chat request runs into the redirect limit, for a state-change
    event, an autoscaling event and a health event. *)
Lemma X17_witness :
  outcome (processCloudwatchEvent Sample.slack Sample.pagerduty
             (Sample.ec2_text "pending")) Sample.world_redirecting
    = Returned (Some ("failed to process EC2 Event: " +:+
                      "Failed to send Slack message - got error: " +:+
                      "stopped after 10 redirects")) /\
  outcome (processCloudwatchEvent Sample.slack Sample.pagerduty
             Sample.launch_unsuccessful_text) Sample.world_redirecting
    = Returned (Some ("failed to process Autoscaling Event: " +:+
                      "Failed to send Slack message - got error: " +:+
                      "stopped after 10 redirects")) /\
  outcome (processCloudwatchEvent Sample.slack Sample.pagerduty Sample.health_text)
    Sample.world_redirecting
    = Returned (Some ("Failed to send Slack message - got error: " +:+
                      "stopped after 10 redirects")).
Proof.
  split; [|split].
  - destruct (X17_event_sink_errors Sample.slack Sample.pagerduty
                (Sample.ec2_text "pending") Sample.world_redirecting
                ltac:(decoded_value
                        (GoJSON.CloudwatchEvent_json (Sample.ec2_text "pending")))
                (Response.mk 302) "stopped after 10 redirects")
      as (Hec2 & _ & _); [vm_compute; reflexivity | reflexivity |].
    apply Hec2; [reflexivity | reflexivity | eexists; vm_compute; reflexivity].
  - destruct (X17_event_sink_errors Sample.slack Sample.pagerduty
                Sample.launch_unsuccessful_text Sample.world_redirecting
                ltac:(decoded_value
                        (GoJSON.CloudwatchEvent_json Sample.launch_unsuccessful_text))
                (Response.mk 302) "stopped after 10 redirects")
      as (_ & Hautoscaling & _); [vm_compute; reflexivity | reflexivity |].
    apply Hautoscaling. reflexivity.
  - destruct (X17_event_sink_errors Sample.slack Sample.pagerduty
                Sample.health_text Sample.world_redirecting
                ltac:(decoded_value (GoJSON.CloudwatchEvent_json Sample.health_text))
                (Response.mk 302) "stopped after 10 redirects")
      as (_ & _ & Hother); [vm_compute; reflexivity | reflexivity |].
    apply Hother; discriminate.
Defined.

(** The failing alarm when only the request to Pagerduty fails: the record
    fails, and the chat message and the incident request have gone out. *)
Lemma X18_witness :
  outcome (processSNSRecord Sample.slack Sample.pagerduty Sample.failing_record)
    Sample.world_paging_redirecting
    = Returned (Some ("failed to trigger Pagerduty Incident - got error: " +:+
                      "stopped after 10 redirects")) /\
  length (World.posts
            (after (processSNSRecord Sample.slack Sample.pagerduty Sample.failing_record)
               Sample.world_paging_redirecting)) = 2.
Proof.
  destruct (X18_paging_error_after_chat_message Sample.slack Sample.pagerduty
              Sample.world_paging_redirecting Sample.failing_record
              ltac:(decoded_value (GoJSON.CloudwatchAlarm_json Sample.alarm_text))
              (Response.mk 200) (Response.mk 302) "stopped after 10 redirects")
    as [Hout Hposts];
    [reflexivity | vm_compute; reflexivity | reflexivity | reflexivity |].
  split; [exact Hout|]. by rewrite Hposts.
Defined.

(** A plain message about a booking: its subject contains [OK:]. *)
Lemma X19_witness :
  processSNSRecord Sample.slack Sample.pagerduty
    (Sample.sns_record "BOOK: your order" "Hello from SNS!") Sample.world_up
  = (Returned (Some ("could not unmarshal Cloudwatch Alarm payload: " +:+
                     "json: syntax error")),
     Sample.world_up).
Proof.
  apply (proj1 (X19_alarm_patterns_come_first Sample.slack Sample.pagerduty
                  Sample.world_up
                  (Sample.sns_record "BOOK: your order" "Hello from SNS!")
                  "json: syntax error" ltac:(right; reflexivity)
                  ltac:(vm_compute; reflexivity))).
Defined.
